(** * The HTTP output plugin (src/plugins/http_output.go)

  A shallow embedding of the plugin's configuration validation
  ([httpOutputConfig.Prepare]), client construction
  ([HTTPOutputConstructor]), cancellation-aware dispatch ([send]) and
  response mapping ([Run]), with the properties of its specification.

  Go strings are byte strings: [string] with one [ascii] per byte.
  Go [error] values are represented by their message. *)

From Stdlib Require Import ZArith Ascii String List Bool Lia Permutation.
From stdpp Require Import base option list gmap strings pretty.
Import ListNotations.

Local Open Scope string_scope.
Local Open Scope list_scope.

(** ** Go standard library: strings.TrimSpace *)

Module GoStrings.

Definition byte_is (c : ascii) (n : nat) : bool := Nat.eqb (nat_of_ascii c) n.

(** The table [asciiSpace] of package strings: tab, newline, vertical tab,
    form feed, carriage return and space. *)
Definition asciiSpace (c : ascii) : bool :=
  byte_is c 9 || byte_is c 10 || byte_is c 11 || byte_is c 12
  || byte_is c 13 || byte_is c 32.

(** [unicode.IsSpace] on the runes that take two bytes in UTF-8:
    U+0085 (C2 85) and U+00A0 (C2 A0). *)
Definition space2 (c1 c2 : ascii) : bool :=
  byte_is c1 194 && (byte_is c2 133 || byte_is c2 160).

(** [unicode.IsSpace] on the runes that take three bytes in UTF-8:
    U+1680 (E1 9A 80), U+2000..U+200A (E2 80 80..8A), U+2028, U+2029
    (E2 80 A8, A9), U+202F (E2 80 AF), U+205F (E2 81 9F), U+3000 (E3 80 80). *)
Definition space3 (c1 c2 c3 : ascii) : bool :=
  (byte_is c1 225 && byte_is c2 154 && byte_is c3 128)
  || (byte_is c1 226 && byte_is c2 128
      && ((Nat.leb 128 (nat_of_ascii c3) && Nat.leb (nat_of_ascii c3) 138)
          || byte_is c3 168 || byte_is c3 169 || byte_is c3 175))
  || (byte_is c1 226 && byte_is c2 129 && byte_is c3 159)
  || (byte_is c1 227 && byte_is c2 128 && byte_is c3 128).

(** [TrimLeftFunc s unicode.IsSpace]: drop the leading runes that are white
    space. A byte sequence that does not decode to a white-space rune stops
    the scan. *)
Fixpoint trimLeft (s : list ascii) : list ascii :=
  match s with
  | [] => []
  | c1 :: s1 =>
      if asciiSpace c1 then trimLeft s1
      else match s1 with
           | [] => s
           | c2 :: s2 =>
               if space2 c1 c2 then trimLeft s2
               else match s2 with
                    | [] => s
                    | c3 :: s3 => if space3 c1 c2 c3 then trimLeft s3 else s
                    end
           end
  end.

(** The same scan over the reversed string: [DecodeLastRuneInString] reads
    the last rune, so the bytes of a rune arrive last byte first. *)
Fixpoint trimLeftRev (s : list ascii) : list ascii :=
  match s with
  | [] => []
  | c1 :: s1 =>
      if asciiSpace c1 then trimLeftRev s1
      else match s1 with
           | [] => s
           | c2 :: s2 =>
               if space2 c2 c1 then trimLeftRev s2
               else match s2 with
                    | [] => s
                    | c3 :: s3 => if space3 c3 c2 c1 then trimLeftRev s3 else s
                    end
           end
  end.

(** [TrimRightFunc s unicode.IsSpace]. *)
Definition trimRight (s : list ascii) : list ascii :=
  rev (trimLeftRev (rev s)).

(** [strings.TrimSpace]: all leading and trailing white space removed. *)
Definition TrimSpace (s : string) : string :=
  string_of_list_ascii (trimRight (trimLeft (list_ascii_of_string s))).

(** [startsSpace s]: the first rune of [s] is white space. *)
Definition startsSpace (s : list ascii) : bool :=
  match s with
  | [] => false
  | c1 :: s1 =>
      asciiSpace c1
      || match s1 with
         | [] => false
         | c2 :: s2 =>
             space2 c1 c2
             || match s2 with
                | [] => false
                | c3 :: _ => space3 c1 c2 c3
                end
         end
  end.

Definition endsSpace (s : list ascii) : bool :=
  match s with
  | [] => false
  | c1 :: s1 =>
      asciiSpace c1
      || match s1 with
         | [] => false
         | c2 :: s2 =>
             space2 c2 c1
             || match s2 with
                | [] => false
                | c3 :: _ => space3 c3 c2 c1
                end
         end
  end.

End GoStrings.

Arguments GoStrings.TrimSpace : simpl never.

(** ** Go standard library: net/textproto and strconv *)

Module GoLib.

Definition between (lo hi : nat) (c : ascii) : bool :=
  Nat.leb lo (nat_of_ascii c) && Nat.leb (nat_of_ascii c) hi.

Definition isLower (c : ascii) : bool := between 97 122 c.
Definition isUpper (c : ascii) : bool := between 65 90 c.
Definition isDigit (c : ascii) : bool := between 48 57 c.

(** [validHeaderFieldByte]: the token characters of RFC 7230. *)
Definition validHeaderFieldByte (c : ascii) : bool :=
  isLower c || isUpper c || isDigit c
  || existsb (Ascii.eqb c)
       ["!"; "#"; "$"; "%"; "&"; "'"; "*"; "+"; "-"; "."; "^"; "_"; "`"; "|"; "~"]%char.

Definition toUpper (c : ascii) : ascii :=
  if isLower c then ascii_of_nat (nat_of_ascii c - 32) else c.
Definition toLower (c : ascii) : ascii :=
  if isUpper c then ascii_of_nat (nat_of_ascii c + 32) else c.

(** The loop of [canonicalMIMEHeaderKey]: upper case for the first letter and
    for a letter after a dash, lower case elsewhere. *)
Fixpoint canonicalize (upper : bool) (s : string) : string :=
  match s with
  | EmptyString => EmptyString
  | String c s' =>
      let c' := if upper then toUpper c else toLower c in
      String c' (canonicalize (Ascii.eqb c' "-") s')
  end.

(** [textproto.CanonicalMIMEHeaderKey]: a key with a byte that is not a token
    character is returned as it is. *)
Definition CanonicalMIMEHeaderKey (s : string) : string :=
  if forallb validHeaderFieldByte (list_ascii_of_string s)
  then canonicalize true s else s.

(** What the loop of [strconv.ParseUint s 10 64] ends with: a value, a syntax
    error, or a range error. *)
Inductive Scan : Type :=
| ScanValue (n : Z)
| ScanSyntax
| ScanRange.

(** The loop of [strconv.ParseUint s 10 64], byte by byte from the left with
    the value [n] so far. A byte that is not a digit ends it with a syntax
    error; a value that leaves uint64 ends it with a range error ([n >=
    cutoff]: [n * 10] overflows; [n1 > maxVal]: [n * 10 + d] does); whichever
    comes first. The bytes after that are not read. *)
Fixpoint parseUint (n : Z) (s : string) : Scan :=
  match s with
  | EmptyString => ScanValue n
  | String c s' =>
      if negb (isDigit c) then ScanSyntax
      else if (18446744073709551615 / 10 + 1 <=? n)%Z then ScanRange
      else
        let n1 := (n * 10 + Z.of_nat (nat_of_ascii c - 48))%Z in
        if (18446744073709551615 <? n1)%Z then ScanRange
        else parseUint n1 s'
  end.

Definition ErrSyntax : string := "invalid syntax".
Definition ErrRange : string := "value out of range".

(** [strconv.ParseInt s 10 64]: the value and the error. The sign is taken
    off, the rest goes through the loop of [ParseUint] (which refuses the
    empty string). On a syntax error the value is 0; out of range, in the
    loop or against the bounds of int64 after it, the value is the nearest
    bound of int64. *)
Definition ParseInt (s : string) : Z * option string :=
  match s with
  | EmptyString => (0, Some ErrSyntax)
  | String c s' =>
      let neg := Ascii.eqb c "-" in
      let digits := if Ascii.eqb c "+" || neg then s' else s in
      let cutoff := 2 ^ 63 in
      match digits with
      | EmptyString => (0, Some ErrSyntax)
      | _ =>
          match parseUint 0 digits with
          | ScanSyntax => (0, Some ErrSyntax)
          | ScanRange =>
              if neg then (- cutoff, Some ErrRange) else (cutoff - 1, Some ErrRange)
          | ScanValue un =>
              if negb neg && (cutoff <=? un) then (cutoff - 1, Some ErrRange)
              else if neg && (cutoff <? un) then (- cutoff, Some ErrRange)
              else (if neg then - un else un, None)
          end
      end
  end%Z.

End GoLib.

(** ** Data model *)

(** A Go [error], by its message. *)
Definition error : Type := string.

(** A function that returns [(T, error)] and whose value is used only when the
    error is nil. *)
Inductive result (A : Type) : Type :=
| Ok (a : A)
| Err (e : error).
Arguments Ok {A} a.
Arguments Err {A} e.

(** The response body of one round trip ([resp.Body], an [io.ReadCloser]). *)
Record Body : Type := mkBody { body_id : nat }.

(** The readers [Run] hands to [http.NewRequest]. *)
Inductive Reader : Type :=
| StreamReader (id : nat)                (* a stream a previous stage left in the task *)
| BodyReader (b : Body)                  (* a response body used as a stream *)
| LimitReader (r : Reader) (n : Z)       (* io.LimitReader(r, n) *)
| NewBuffer (data : string).             (* bytes.NewBuffer([]byte(data)) *)

(** What a task field holds (Go's [interface{}]). *)
Inductive Value : Type :=
| VNil
| VString (s : string)
| VInt (n : Z)
| VReader (r : Reader)
| VReadCloser (b : Body)
| VOther (repr : string).

(** The type assertion [v.(io.Reader)]. *)
Definition asReader (v : Value) : option Reader :=
  match v with
  | VReader r => Some r
  | VReadCloser b => Some (BodyReader b)
  | _ => None
  end.

(** The type assertion [v.(string)]. *)
Definition asString (v : Value) : option string :=
  match v with
  | VString s => Some s
  | _ => None
  end.

Inductive TaskResultCode : Type :=
| ResultMissingInput
| ResultInternalServerError
| ResultServiceUnavailable
| ResultTaskCancelled.

(** The callbacks a task runs when it finishes. The closure of lines 303-307
    captures the callback's own name and the response. *)
Inductive TaskFinished : Type :=
| closeHTTPOutputResponseBody (name : string) (body : Body)
| otherCallback (id : nat).

(** Modelled from the spec: the task of package easegateway-types/task, which
    is not part of the plugin's source: "a mutable key/value state map, a
    cancellation signal with an attached cause, an error slot with a
    classification code, and a registry of callbacks to run at task
    completion". [task_errors] lists the calls of [SetError], latest first; the
    error slot is its head. *)
Record Task : Type := mkTask {
  task_values : gmap string Value;
  task_errors : list (error * TaskResultCode);
  task_callbacks : list (string * TaskFinished);
  task_cancelled : option error
}.

(** Modelled from the spec: [t.Value(key)], nil for a key that is not set. *)
Definition Value_of (t : Task) (key : string) : Value :=
  default VNil (task_values t !! key).

(** Modelled from the spec: [t.SetError(err, code)], "an error slot accepting
    (error, classification)". *)
Definition SetError (t : Task) (err : error) (code : TaskResultCode) : Task :=
  {| task_values := task_values t;
     task_errors := (err, code) :: task_errors t;
     task_callbacks := task_callbacks t;
     task_cancelled := task_cancelled t |}.

(** The error slot. *)
Definition Error_of (t : Task) : option (error * TaskResultCode) :=
  head (task_errors t).

(** Modelled from the spec: [t.DeleteFinishedCallback(name)] of "a
    finish-callback registry keyed by name, supporting idempotent add/remove". *)
Definition DeleteFinishedCallback (t : Task) (name : string) : Task :=
  {| task_values := task_values t;
     task_errors := task_errors t;
     task_callbacks := filter (fun p => p.1 ≠ name) (task_callbacks t);
     task_cancelled := task_cancelled t |}.

(** Modelled from the spec: [t.AddFinishedCallback(name, cb)]; a callback
    registered under a name replaces the one that had it. *)
Definition AddFinishedCallback (t : Task) (name : string) (cb : TaskFinished) : Task :=
  {| task_values := task_values t;
     task_errors := task_errors t;
     task_callbacks := filter (fun p => p.1 ≠ name) (task_callbacks t) ++ [(name, cb)];
     task_cancelled := task_cancelled t |}.

(** Modelled from the spec: [t.CancelCause()] formatted with [%s]; a task that
    is not cancelled has a nil cause. *)
Definition CancelCause (t : Task) : string :=
  default "%!s(<nil>)" (task_cancelled t).

(** [http.Response], as far as [Run] reads it. *)
Record Response : Type := mkResponse {
  StatusCode : Z;
  Resp_Body : Body
}.

(** [http.Request], as far as [Run] builds it. *)
Record Request : Type := mkRequest {
  Req_Method : string;
  Req_URL : string;
  Req_Body : Reader;
  ContentLength : Z;
  Header : gmap string (list string)
}.

(** [req.Header.Set(key, value)]. *)
Definition Header_Set (req : Request) (key value : string) : Request :=
  {| Req_Method := Req_Method req;
     Req_URL := Req_URL req;
     Req_Body := Req_Body req;
     ContentLength := ContentLength req;
     Header := <[GoLib.CanonicalMIMEHeaderKey key := [value]]> (Header req) |}.

(** [req.Header.Get(key)]: the first value under the canonical key. *)
Definition Header_Get (req : Request) (key : string) : string :=
  match Header req !! GoLib.CanonicalMIMEHeaderKey key with
  | Some (v :: _) => v
  | _ => ""
  end.

(** What [Run] and the finish callbacks do to the world outside the task. *)
Inductive Event : Type :=
| EvNewRequest (method link : string)   (* http.NewRequest was called *)
| EvDo (req : Request)                  (* h.client.Do(req) was started *)
| EvCancel                              (* the context of the call was cancelled *)
| EvClose (b : Body).                   (* Body.Close() was called *)

(** The parsed URL, through the accessors [Prepare] calls on it. *)
Record URL : Type := mkURL {
  Scheme : string;
  Hostname : string
}.

(** [uri.IsAbs()]. *)
Definition IsAbs (u : URL) : bool := negb (String.eqb (Scheme u) "").

(** [tls.Certificate], by the two PEM files it was loaded from. *)
Record Certificate : Type := mkCertificate {
  cert_pem : string;
  key_pem : string
}.

(** ** The plugin *)

Section Plugin.

(** The embedded [CommonConfig], shared by all plugins and defined outside
    this file. *)
Context {CommonConfig : Type}.

(** The functions and tables the plugin takes from other packages. Every
    theorem below holds whatever they are. *)
Record Externals : Type := mkExternals {
  (* plugins: CommonConfig.Prepare and PluginName *)
  CommonConfig_Prepare : CommonConfig -> list string -> CommonConfig * option error;
  PluginName : CommonConfig -> string;
  (* net/url *)
  url_ParseRequestURI : string -> result URL;
  (* common *)
  StrInSlice : string -> list string -> bool;
  ScanTokens : string -> bool -> option error;
  (* plugins: the table supportedMethods *)
  supportedMethods : gset string;
  (* regexp: Compile, and MatchString of the compiled expression *)
  regexp_Compile : string -> option error;
  regexp_MatchString : string -> string -> bool;
  (* crypto/tls and io/ioutil: the files on disk *)
  tls_LoadX509KeyPair : string -> string -> result Certificate;
  ioutil_ReadFile : string -> option string * option error;
  (* plugins: template expansion *)
  ReplaceTokensInPattern : Task -> string -> string * option error;
  (* net/http: whether NewRequest refuses the method or the URL *)
  http_NewRequest_error : string -> string -> option error;
  (* task and option *)
  task_ToString : Z -> Z -> string;
  PluginIODataFormatLengthLimit : Z;
  (* fmt: the verb %#v *)
  fmt_GoSyntax : Value -> string;
  (* task: whether WithValue refuses the write *)
  task_WithValue_error : Task -> string -> Value -> option error
}.

(** [*regexp.Regexp], by the expression it was compiled from. *)
Record Regexp : Type := mkRegexp { expr : string }.

Record httpOutputConfig : Type := mkConfig {
  Common : CommonConfig;
  URLPattern : string;
  HeaderPatterns : gmap string string;
  Close : bool;
  RequestBodyBufferPattern : string;
  Method : string;
  ExpectedResponseCode : string;
  TimeoutSec : Z;
  CertFile : string;
  KeyFile : string;
  CAFile : string;
  Insecure : bool;
  RequestBodyIOKey : string;
  ResponseCodeKey : string;
  ResponseBodyIOKey : string;
  expectedResponseCode : option Regexp;
  cert : option Certificate;
  caCert : option string
}.

Definition set_Common (c : httpOutputConfig) (cc : CommonConfig) : httpOutputConfig :=
  mkConfig cc (URLPattern c) (HeaderPatterns c) (Close c)
    (RequestBodyBufferPattern c) (Method c) (ExpectedResponseCode c)
    (TimeoutSec c) (CertFile c) (KeyFile c) (CAFile c) (Insecure c)
    (RequestBodyIOKey c) (ResponseCodeKey c) (ResponseBodyIOKey c)
    (expectedResponseCode c) (cert c) (caCert c).

Definition set_expectedResponseCode (c : httpOutputConfig) (re : option Regexp)
  : httpOutputConfig :=
  mkConfig (Common c) (URLPattern c) (HeaderPatterns c) (Close c)
    (RequestBodyBufferPattern c) (Method c) (ExpectedResponseCode c)
    (TimeoutSec c) (CertFile c) (KeyFile c) (CAFile c) (Insecure c)
    (RequestBodyIOKey c) (ResponseCodeKey c) (ResponseBodyIOKey c)
    re (cert c) (caCert c).

Definition set_cert (c : httpOutputConfig) (crt : option Certificate)
  : httpOutputConfig :=
  mkConfig (Common c) (URLPattern c) (HeaderPatterns c) (Close c)
    (RequestBodyBufferPattern c) (Method c) (ExpectedResponseCode c)
    (TimeoutSec c) (CertFile c) (KeyFile c) (CAFile c) (Insecure c)
    (RequestBodyIOKey c) (ResponseCodeKey c) (ResponseBodyIOKey c)
    (expectedResponseCode c) crt (caCert c).

Definition set_caCert (c : httpOutputConfig) (ca : option string)
  : httpOutputConfig :=
  mkConfig (Common c) (URLPattern c) (HeaderPatterns c) (Close c)
    (RequestBodyBufferPattern c) (Method c) (ExpectedResponseCode c)
    (TimeoutSec c) (CertFile c) (KeyFile c) (CAFile c) (Insecure c)
    (RequestBodyIOKey c) (ResponseCodeKey c) (ResponseBodyIOKey c)
    (expectedResponseCode c) (cert c) ca.

(** Lines 64-73: the nine fields that are trimmed. The header patterns and the
    body buffer pattern are not. *)
Definition trimFields (c : httpOutputConfig) : httpOutputConfig :=
  let ts := GoStrings.TrimSpace in
  mkConfig (Common c) (ts (URLPattern c)) (HeaderPatterns c) (Close c)
    (RequestBodyBufferPattern c) (ts (Method c)) (ts (ExpectedResponseCode c))
    (TimeoutSec c) (ts (CertFile c)) (ts (KeyFile c)) (ts (CAFile c)) (Insecure c)
    (ts (RequestBodyIOKey c)) (ts (ResponseCodeKey c)) (ts (ResponseBodyIOKey c))
    (expectedResponseCode c) (cert c) (caCert c).

(** [HTTPOutputConfigConstructor]: the defaults, around the common part. *)
Definition HTTPOutputConfigConstructor (cc : CommonConfig) : httpOutputConfig :=
  mkConfig cc "" ∅ true "" "" ".*" 120 "" "" "" false "" "" "" None None None.

Variable E : Externals.

(** Lines 75-80: the condition under which the URL is refused. *)
Definition invalidURL (pattern : string) : bool :=
  match url_ParseRequestURI E pattern with
  | Err _ => true
  | Ok uri =>
      negb (IsAbs uri) || String.eqb (Hostname uri) ""
      || negb (StrInSlice E (Scheme uri) ["http"; "https"])
  end.

(** Lines 88-100: the checks of one header pattern. *)
Definition checkHeader (name value : string) : option error :=
  if Nat.eqb (String.length (GoStrings.TrimSpace name)) 0
  then Some "invalid header name"
  else match ScanTokens E name false with
       | Some _ => Some "invalid header name pattern"
       | None =>
           match ScanTokens E value false with
           | Some _ => Some "invalid header value pattern"
           | None => None
           end
       end.

(** Lines 87-101: the loop over the header patterns, which returns at the
    first entry that fails. [entries] is the map in the order in which [range]
    yields it. *)
Fixpoint checkHeaders (entries : list (string * string)) : option error :=
  match entries with
  | [] => None
  | (name, value) :: rest =>
      match checkHeader name value with
      | Some e => Some e
      | None => checkHeaders rest
      end
  end.

(** Go does not fix the order in which [range] yields the entries of a map:
    [entries] is one of the orders of [m]. *)
Definition rangeOrder (m : gmap string string) (entries : list (string * string)) : Prop :=
  entries ≡ₚ map_to_list m.

(** [httpOutputConfig.Prepare] (lines 58-138): the configuration as the call
    leaves it, and the error. [entries] is the order in which the loop of line
    87 sees the header patterns. The warning of line 114 is a log line and is
    left out. *)
Definition Prepare (c : httpOutputConfig) (pipelineNames : list string)
    (entries : list (string * string)) : httpOutputConfig * option error :=
  let '(cc, err) := CommonConfig_Prepare E (Common c) pipelineNames in
  let c := set_Common c cc in
  match err with
  | Some e => (c, Some e)
  | None =>
  let c := trimFields c in
  if invalidURL (URLPattern c) then (c, Some "invalid url") else
  match ScanTokens E (URLPattern c) false with
  | Some _ => (c, Some "invalid url pattern")
  | None =>
  match checkHeaders entries with
  | Some e => (c, Some e)
  | None =>
  if negb (bool_decide (Method c ∈ supportedMethods E))
  then (c, Some "invalid http method") else
  match regexp_Compile E (ExpectedResponseCode c) with
  | Some e =>
      (set_expectedResponseCode c None,
       Some ("invalid expected response code: " +:+ e))
  | None =>
  let c := set_expectedResponseCode c (Some (mkRegexp (ExpectedResponseCode c))) in
  match ScanTokens E (RequestBodyBufferPattern c) false with
  | Some _ => (c, Some "invalid body buffer pattern")
  | None =>
  let loaded :=
    if negb (Nat.eqb (String.length (CertFile c)) 0)
       && negb (Nat.eqb (String.length (KeyFile c)) 0)
    then match tls_LoadX509KeyPair E (CertFile c) (KeyFile c) with
         | Err _ =>
             Err "invalid PEM eoncoded certificate and/or preivate key file(s)"
         | Ok crt => Ok (set_cert c (Some crt))
         end
    else Ok c in
  match loaded with
  | Err e => (c, Some e)
  | Ok c =>
  if negb (Nat.eqb (String.length (CAFile c)) 0)
  then let '(data, err) := ioutil_ReadFile E (CAFile c) in
       let c := set_caCert c data in
       match err with
       | Some _ => (c, Some "invalid PEM eoncoded CA certificate file")
       | None => (c, None)
       end
  else (c, None)
  end end end end end end.

(** The checks that stand before the method check (lines 59-101). *)
Definition earlierChecksPass (c : httpOutputConfig) (names : list string)
    (entries : list (string * string)) : Prop :=
  (CommonConfig_Prepare E (Common c) names).2 = None
  /\ invalidURL (GoStrings.TrimSpace (URLPattern c)) = false
  /\ ScanTokens E (GoStrings.TrimSpace (URLPattern c)) false = None
  /\ checkHeaders entries = None.

(** Line 122: both file names are given. *)
Definition keyPairGiven (c : httpOutputConfig) : bool :=
  negb (Nat.eqb (String.length (GoStrings.TrimSpace (CertFile c))) 0)
  && negb (Nat.eqb (String.length (GoStrings.TrimSpace (KeyFile c))) 0).

(** The configuration with neither file name. *)
Definition withoutKeyPair (c : httpOutputConfig) : httpOutputConfig :=
  mkConfig (Common c) (URLPattern c) (HeaderPatterns c) (Close c)
    (RequestBodyBufferPattern c) (Method c) (ExpectedResponseCode c)
    (TimeoutSec c) "" "" (CAFile c) (Insecure c)
    (RequestBodyIOKey c) (ResponseCodeKey c) (ResponseBodyIOKey c)
    (expectedResponseCode c) (cert c) (caCert c).

(** [tls.Config], as far as the constructor sets it. The pool of root
    certificates is the PEM data it was filled from. *)
Record tls_Config : Type := mkTLS {
  InsecureSkipVerify : bool;
  Certificates : list Certificate;
  NameToCertificateBuilt : bool;
  RootCAs : option string
}.

(** [http.Client]: the timeout in nanoseconds and the TLS configuration of its
    transport. *)
Record http_Client : Type := mkClient {
  Timeout : Z;
  TLSClientConfig : tls_Config
}.

Record httpOutput : Type := mkHTTPOutput {
  conf : httpOutputConfig;
  client : http_Client
}.

(** [HTTPOutputConstructor] (lines 147-176), on a configuration of the right
    type. *)
Definition HTTPOutputConstructor (c : httpOutputConfig) : httpOutput :=
  let tlsConfig := mkTLS (Insecure c) [] false None in
  let tlsConfig :=
    match cert c with
    | Some crt => mkTLS (InsecureSkipVerify tlsConfig) [crt] true (RootCAs tlsConfig)
    | None => tlsConfig
    end in
  let tlsConfig :=
    match caCert c with
    | Some pem =>
        mkTLS (InsecureSkipVerify tlsConfig) (Certificates tlsConfig)
          (NameToCertificateBuilt tlsConfig) (Some pem)
    | None => tlsConfig
    end in
  mkHTTPOutput c (mkClient (TimeoutSec c * 1000000000) tlsConfig).

(** [h.Name()]. *)
Definition Name (h : httpOutput) : string := PluginName E (Common (conf h)).

(** The case of the [select] of line 206 that fires. *)
Inductive SendOutcome : Type :=
| GotResponse (resp : Response)   (* case resp := <-r *)
| GotError (err : error)          (* case err := <-e *)
| GotCancel.                      (* case <-t.Cancel() *)

(** [send] (lines 182-218), given the case that fires: the task, the response
    and the error it returns. The protocol between [send] and its worker is
    [SendProtocol] below. *)
Definition send (out : SendOutcome) (t : Task)
  : Task * (option Response * option error) :=
  match out with
  | GotResponse resp => (t, (Some resp, None))
  | GotError err => (SetError t err ResultServiceUnavailable, (None, Some err))
  | GotCancel =>
      let err := "task is cancelled by " +:+ CancelCause t in
      (SetError t err ResultTaskCancelled, (None, Some err))
  end.

(** What the world sees of one call of [send]. *)
Definition send_events (out : SendOutcome) (req : Request) : list Event :=
  match out with
  | GotCancel => [EvDo req; EvCancel]
  | _ => [EvDo req]
  end.

(** Modelled from the spec: [task.WithValue(t, key, value)], the write of a
    field into the task state. Package task is not part of the source; a write
    that is refused hands back the task it was given. *)
Definition WithValue (t : Task) (key : string) (v : Value) : Task * option error :=
  match task_WithValue_error E t key v with
  | Some e => (t, Some e)
  | None =>
      ({| task_values := <[key := v]> (task_values t);
          task_errors := task_errors t;
          task_callbacks := task_callbacks t;
          task_cancelled := task_cancelled t |}, None)
  end.

(** Lines 224-255: the body of the request and its length, or the task with
    the missing-input error. *)
Definition requestBody (c : httpOutputConfig) (t : Task) : Task + (Reader * Z) :=
  if negb (Nat.eqb (String.length (RequestBodyIOKey c)) 0) then
    let inputValue := Value_of t (RequestBodyIOKey c) in
    match asReader inputValue with
    | None =>
        inl (SetError t
               ("input " +:+ RequestBodyIOKey c +:+ " got wrong value: "
                  +:+ fmt_GoSyntax E inputValue)
               ResultMissingInput)
    | Some input =>
        match asString (Value_of t "HTTP_CONTENT_LENGTH") with
        | Some clen =>
            let '(length, err) := GoLib.ParseInt clen in
            if bool_decide (err = None) && (0 <=? length)%Z
            then inr (LimitReader input length, length)
            else inr (input, length)
        | None => inr (input, 0%Z)
        end
    end
  else
    let body := (ReplaceTokensInPattern E t (RequestBodyBufferPattern c)).1 in
    inr (NewBuffer body, Z.of_nat (String.length body)).

(** [http.NewRequest(method, url, body)]: an empty method means GET. *)
Definition http_NewRequest (method link : string) (body : Reader) : result Request :=
  match http_NewRequest_error E method link with
  | Some e => Err e
  | None =>
      Ok (mkRequest (if String.eqb method "" then "GET" else method) link body 0 ∅)
  end.

(** Lines 264-271: the loop over the header patterns, in the order in which
    [range] yields them. *)
Definition setHeaders (t : Task) (entries : list (string * string)) (req : Request)
  : Request :=
  fold_left
    (fun req nv =>
       Header_Set req (ReplaceTokensInPattern E t nv.1).1
                      (ReplaceTokensInPattern E t nv.2).1)
    entries req.

(** Lines 222-272: the request [Run] dispatches, or the task it returns before
    any dispatch; with the events so far. *)
Definition buildRequest (h : httpOutput) (entries : list (string * string)) (t : Task)
  : (Task + Request) * list Event :=
  let c := conf h in
  let link := (ReplaceTokensInPattern E t (URLPattern c)).1 in
  match requestBody c t with
  | inl t' => (inl t', [])
  | inr (reader, length) =>
      match http_NewRequest (Method c) link reader with
      | Err err =>
          (inl (SetError t err ResultInternalServerError),
           [EvNewRequest (Method c) link])
      | Ok req =>
          let req := mkRequest (Req_Method req) (Req_URL req) (Req_Body req)
                       length (Header req) in
          let req := setHeaders t entries req in
          (inr (Header_Set req "User-Agent" "EaseGateway"),
           [EvNewRequest (Method c) link])
      end
  end.

(** The name under which the close callback is registered (lines 304, 309). *)
Definition closeCallbackName (h : httpOutput) : string :=
  Name h +:+ "-closeHTTPOutputResponseBody".

(** A call of [Run] returns, or panics. *)
Inductive RunResult : Type :=
| Return (t : Task) (err : option error)
| Panic (why : string).

(** Lines 279-313: what [Run] does with the response. *)
Definition mapResponse (h : httpOutput) (t : Task) (resp : Response) : RunResult :=
  let c := conf h in
  match expectedResponseCode c with
  | None => Panic "nil *regexp.Regexp"
  | Some re =>
  let responseCode := task_ToString E (StatusCode resp) (PluginIODataFormatLengthLimit E) in
  if negb (regexp_MatchString E (expr re) responseCode) then
    Return (SetError t
              ("response code: " +:+ pretty (StatusCode resp)
                 +:+ " doesn't match with expected : " +:+ ExpectedResponseCode c)
              ResultInternalServerError) None
  else
  let '(t, err) :=
    if negb (Nat.eqb (String.length (ResponseCodeKey c)) 0)
    then WithValue t (ResponseCodeKey c) (VInt (StatusCode resp))
    else (t, None) in
  match err with
  | Some e => Return (SetError t e ResultInternalServerError) None
  | None =>
  let '(t, err) :=
    if negb (Nat.eqb (String.length (ResponseBodyIOKey c)) 0)
    then WithValue t (ResponseBodyIOKey c) (VReadCloser (Resp_Body resp))
    else (t, None) in
  match err with
  | Some e => Return (SetError t e ResultInternalServerError) None
  | None =>
  if Close c
  then Return (AddFinishedCallback t (closeCallbackName h)
                 (closeHTTPOutputResponseBody (closeCallbackName h) (Resp_Body resp)))
              None
  else Return t None
  end end end.

(** [httpOutput.Run] (lines 220-314). [entries] is the order in which the loop
    of line 265 sees the header patterns and [out] the case of [send]'s select
    that fires. The result comes with the events of the call. *)
Definition Run (h : httpOutput) (entries : list (string * string))
    (out : SendOutcome) (t : Task) : RunResult * list Event :=
  match buildRequest h entries t with
  | (inl t', evs) => (Return t' None, evs)
  | (inr req, evs) =>
      let evs := evs ++ send_events out req in
      match send out t with
      | (t, (_, Some _)) => (Return t None, evs)
      | (t, (None, None)) => (Panic "nil *http.Response", evs)
      | (t, (Some resp, None)) => (mapResponse h t resp, evs)
      end
  end.

(** The closure of lines 303-307, and the callbacks of other plugins, which
    leave the task and the response alone. *)
Definition runCallback (cb : TaskFinished) (st : Task * list Event)
  : Task * list Event :=
  match cb with
  | closeHTTPOutputResponseBody name body =>
      (DeleteFinishedCallback st.1 name, st.2 ++ [EvClose body])
  | otherCallback _ => st
  end.

(** The callback closes the body [b]. *)
Definition closesBody (b : Body) (cb : TaskFinished) : bool :=
  match cb with
  | closeHTTPOutputResponseBody _ b' => Nat.eqb (body_id b') (body_id b)
  | otherCallback _ => false
  end.

(** Modelled from the spec: the end of a task, which is not part of the
    source: "a function registered on a task to run once, at task completion".
    The callbacks registered at that time run once each, in the order of their
    registration. *)
Definition Finish (t : Task) : Task * list Event :=
  fold_left (fun st ncb => runCallback ncb.2 st) (task_callbacks t) (t, []).

(** How often [Body.Close] was called on [b]. *)
Definition closes (b : Body) (evs : list Event) : nat :=
  length (List.filter
            (fun ev => match ev with
                       | EvClose b' => Nat.eqb (body_id b') (body_id b)
                       | _ => false
                       end) evs).

(** What lines 75-135 ask of a configuration, on its fields as trimmed: a
    URL that is accepted and scans as a pattern, header patterns that pass,
    a supported method, an expected code that compiles, a body buffer pattern
    that scans, a key pair that loads when both of its files are named, and a
    CA file that reads when it is named. *)
Definition acceptable (c : httpOutputConfig) : Prop :=
  invalidURL (GoStrings.TrimSpace (URLPattern c)) = false
  /\ ScanTokens E (GoStrings.TrimSpace (URLPattern c)) false = None
  /\ (forall name value, HeaderPatterns c !! name = Some value ->
        checkHeader name value = None)
  /\ GoStrings.TrimSpace (Method c) ∈ supportedMethods E
  /\ regexp_Compile E (GoStrings.TrimSpace (ExpectedResponseCode c)) = None
  /\ ScanTokens E (RequestBodyBufferPattern c) false = None
  /\ (keyPairGiven c = true ->
      exists crt, tls_LoadX509KeyPair E (GoStrings.TrimSpace (CertFile c))
                    (GoStrings.TrimSpace (KeyFile c)) = Ok crt)
  /\ (GoStrings.TrimSpace (CAFile c) <> "" ->
      (ioutil_ReadFile E (GoStrings.TrimSpace (CAFile c))).2 = None).

(** The fields that lines 65-73 trim, in the order of the source. *)
Definition stringFields (c : httpOutputConfig) : list string :=
  [URLPattern c; RequestBodyIOKey c; Method c; ExpectedResponseCode c;
   CertFile c; KeyFile c; CAFile c; ResponseCodeKey c; ResponseBodyIOKey c].

(** The fields of the configuration file that [Prepare] does not assign. *)
Definition plainFields (c : httpOutputConfig)
  : gmap string string * string * bool * Z * bool :=
  (HeaderPatterns c, RequestBodyBufferPattern c, Close c, TimeoutSec c, Insecure c).

(** How often [h.client.Do] was started. *)
Definition attempts (evs : list Event) : nat :=
  length (List.filter (fun ev => match ev with EvDo _ => true | _ => false end) evs).

(** The key under which the loop of lines 265-271 sets a header pattern. *)
Definition headerKey (t : Task) (nv : string * string) : string :=
  GoLib.CanonicalMIMEHeaderKey (ReplaceTokensInPattern E t nv.1).1.

(** The names that the close callbacks of a list remove from the registry. *)
Definition closeNames (cbs : list (string * TaskFinished)) : list string :=
  flat_map (fun ncb => match ncb.2 with
                       | closeHTTPOutputResponseBody name _ => [name]
                       | otherCallback _ => []
                       end) cbs.

End Plugin.

(** ** The protocol of [send] (lines 182-218)

    [send] makes the unbuffered channels [r] and [e], starts a worker that
    calls [h.client.Do] and sends its outcome, and waits in a [select] for the
    first of: a response on [r], an error on [e], the cancellation of the task.
    On its way out it closes [e], then [r] (the deferred calls, last
    registered first). The state below is that of the two goroutines; a step
    is one move of one of them, or the cancellation of the task by its owner. *)

Module SendProtocol.

(** What [h.client.Do(req)] returns. With an error the response is usually
    nil, but need not be. *)
Inductive DoResult : Type :=
| DoResponse (resp : Response)
| DoError (err : error) (resp : option Response).

(** Where the worker of lines 192-204 stands. *)
Inductive Worker : Type :=
| WDo                                            (* line 199, inside Do *)
| WSendErr (err : error) (resp : option Response) (* line 201, e <- err *)
| WSendResp (resp : option Response)              (* line 203, r <- resp *)
| WPanic                                         (* a send on a closed channel *)
| WDone                                          (* the goroutine has returned *)
| WCrashed.                                      (* a panic left the goroutine *)

(** Where [send] itself stands; after the select it holds what it returns. *)
Inductive Main : Type :=
| MSelect                                              (* line 206 *)
| MCloseE (res : option Response * option error)       (* deferred close(e) *)
| MCloseR (res : option Response * option error)       (* deferred close(r) *)
| MReturned (res : option Response * option error).

Record State : Type := mkState {
  main : Main;
  worker : Worker;
  e_closed : bool;
  r_closed : bool;
  ctx_cancelled : bool;
  task : Task
}.

(** The deferred function of lines 193-197 calls [recover()]. *)
Definition worker_recovers : bool := true.

Inductive Step : Type :=
| DoReturns (d : DoResult)   (* Do returns in the worker *)
| RecvResponse               (* line 207: the select takes the worker's response *)
| RecvError                  (* line 209: the select takes the worker's error *)
| Cancelled                  (* line 212: the select takes the cancellation *)
| TaskCancel (cause : error) (* the owner of the task cancels it *)
| CloseE                     (* line 187, deferred *)
| CloseR                     (* line 186, deferred *)
| SendPanics                 (* the worker's send finds its channel closed *)
| Unwind.                    (* the worker's deferred function runs *)

Definition init (t : Task) : State :=
  mkState MSelect WDo false false false t.

Definition set_task (t : Task) (cause : error) : Task :=
  {| task_values := task_values t;
     task_errors := task_errors t;
     task_callbacks := task_callbacks t;
     task_cancelled := Some cause |}.

(** One step; [None] when the step is not enabled in the state. *)
Definition step (l : Step) (s : State) : option State :=
  match l with
  | DoReturns d =>
      match worker s with
      | WDo =>
          let w := match d with
                   | DoResponse resp => WSendResp (Some resp)
                   | DoError err resp => WSendErr err resp
                   end in
          Some (mkState (main s) w (e_closed s) (r_closed s) (ctx_cancelled s) (task s))
      | _ => None
      end
  | RecvResponse =>
      match main s, worker s, r_closed s with
      | MSelect, WSendResp resp, false =>
          Some (mkState (MCloseE (resp, None)) WDone
                  (e_closed s) (r_closed s) (ctx_cancelled s) (task s))
      | _, _, _ => None
      end
  | RecvError =>
      match main s, worker s, e_closed s with
      | MSelect, WSendErr err resp, false =>
          Some (mkState (MCloseE (None, Some err)) (WSendResp resp)
                  (e_closed s) (r_closed s) (ctx_cancelled s)
                  (SetError (task s) err ResultServiceUnavailable))
      | _, _, _ => None
      end
  | Cancelled =>
      match main s, task_cancelled (task s) with
      | MSelect, Some _ =>
          let err := "task is cancelled by " +:+ CancelCause (task s) in
          Some (mkState (MCloseE (None, Some err)) (worker s)
                  (e_closed s) (r_closed s) true
                  (SetError (task s) err ResultTaskCancelled))
      | _, _ => None
      end
  | TaskCancel cause =>
      match task_cancelled (task s) with
      | None =>
          Some (mkState (main s) (worker s) (e_closed s) (r_closed s)
                  (ctx_cancelled s) (set_task (task s) cause))
      | Some _ => None
      end
  | CloseE =>
      match main s with
      | MCloseE res =>
          Some (mkState (MCloseR res) (worker s) true (r_closed s)
                  (ctx_cancelled s) (task s))
      | _ => None
      end
  | CloseR =>
      match main s with
      | MCloseR res =>
          Some (mkState (MReturned res) (worker s) (e_closed s) true
                  (ctx_cancelled s) (task s))
      | _ => None
      end
  | SendPanics =>
      match worker s with
      | WSendErr _ _ =>
          if e_closed s
          then Some (mkState (main s) WPanic (e_closed s) (r_closed s)
                       (ctx_cancelled s) (task s))
          else None
      | WSendResp _ =>
          if r_closed s
          then Some (mkState (main s) WPanic (e_closed s) (r_closed s)
                       (ctx_cancelled s) (task s))
          else None
      | _ => None
      end
  | Unwind =>
      match worker s with
      | WPanic =>
          Some (mkState (main s) (if worker_recovers then WDone else WCrashed)
                  (e_closed s) (r_closed s) (ctx_cancelled s) (task s))
      | _ => None
      end
  end.

(** A schedule, step by step. *)
Fixpoint run (ls : list Step) (s : State) : option State :=
  match ls with
  | [] => Some s
  | l :: ls' =>
      match step l s with
      | Some s' => run ls' s'
      | None => None
      end
  end.

(** What the select has chosen, once it has. *)
Definition chosen (s : State) : option (option Response * option error) :=
  match main s with
  | MSelect => None
  | MCloseE res | MCloseR res | MReturned res => Some res
  end.

(** The three outcomes of one call, as [send] acts on them: the response is
    returned and the task left alone; or the worker's error is recorded as
    service-unavailable and returned; or the context is cancelled and the
    task-cancelled error, with the cause, recorded and returned. *)
Inductive Outcome (t0 : Task) (s : State) : option Response * option error -> Prop :=
| OutResponse resp :
    task_errors (task s) = task_errors t0 ->
    Outcome t0 s (Some resp, None)
| OutError err :
    task_errors (task s) = (err, ResultServiceUnavailable) :: task_errors t0 ->
    Outcome t0 s (None, Some err)
| OutCancelled cause :
    task_cancelled (task s) = Some cause ->
    ctx_cancelled s = true ->
    task_errors (task s)
      = ("task is cancelled by " +:+ cause, ResultTaskCancelled) :: task_errors t0 ->
    Outcome t0 s (None, Some ("task is cancelled by " +:+ cause)).





(** The channels that are closed at each point of [send]'s way out. *)
Definition closing (s : State) : bool :=
  match main s with
  | MSelect | MCloseE _ => true
  | MCloseR _ => e_closed s
  | MReturned _ => e_closed s && r_closed s
  end.

(** What holds in every state of a call on the task [t0]: the worker has not
    crashed; before the select has chosen, nothing was recorded on the task,
    the channels are open and the worker does not offer a nil response; once
    it has chosen, the task and the context are as the one outcome says. *)
Definition Inv (t0 : Task) (s : State) : Prop :=
  worker s <> WCrashed
  /\ match chosen s with
     | None =>
         task_errors (task s) = task_errors t0
         /\ e_closed s = false /\ r_closed s = false
         /\ worker s <> WSendResp None
     | Some res => Outcome t0 s res
     end.

(** A cancelled context comes with a cancelled task, the cancellation chosen
    by the select, and its error on top of the errors of the task. *)
Definition cancelledBy (s : State) : Prop :=
  ctx_cancelled s = true ->
  exists cause,
    task_cancelled (task s) = Some cause
    /\ chosen s = Some (None, Some ("task is cancelled by " +:+ cause))
    /\ head (task_errors (task s))
       = Some ("task is cancelled by " +:+ cause, ResultTaskCancelled).

End SendProtocol.

(** ** A reference instance of the externals

    The properties below are proved for every instance of [Externals]. This
    one is small and computes; it serves the examples. Its URL parser, its
    regular expressions and its files cover a fragment of what the real
    packages accept, enough for the inputs used here. *)

Module Reference.

(** Modelled from the spec: the common part of a plugin configuration ("name,
    pipeline binding"); its [Prepare] trims the name and refuses an empty one. *)
Record CommonConfig : Type := mkCommon { plugin_name : string }.

Definition CommonConfig_Prepare (cc : CommonConfig) (pipelineNames : list string)
  : CommonConfig * option error :=
  let cc := mkCommon (GoStrings.TrimSpace (plugin_name cc)) in
  if String.eqb (plugin_name cc) "" then (cc, Some "invalid plugin name")
  else (cc, None).

(** [getScheme] of net/url. *)
Inductive SchemeScan : Type :=
| NoScheme
| MissingScheme
| FoundScheme (scheme rest : string).

Fixpoint getScheme (first : bool) (s : string) : SchemeScan :=
  match s with
  | EmptyString => NoScheme
  | String c s' =>
      let continue :=
        match getScheme false s' with
        | FoundScheme sch rest => FoundScheme (String c sch) rest
        | other => other
        end in
      if GoLib.isLower c || GoLib.isUpper c then continue
      else if GoLib.isDigit c || existsb (Ascii.eqb c) ["+"; "-"; "."]%char
           then (if first then NoScheme else continue)
      else if Ascii.eqb c ":"
           then (if first then MissingScheme else FoundScheme "" s')
      else NoScheme
  end.

(** The part of [s] before the first [sep], and the part after it. *)
Fixpoint cut (sep : ascii) (s : string) : string * option string :=
  match s with
  | EmptyString => ("", None)
  | String c s' =>
      if Ascii.eqb c sep then ("", Some s')
      else let '(before, after) := cut sep s' in (String c before, after)
  end.

(** The part of [s] after the last [sep]; [s] when there is none. *)
Fixpoint afterLast (sep : ascii) (s : string) : string :=
  match s with
  | EmptyString => ""
  | String c s' =>
      if existsb (Ascii.eqb sep) (list_ascii_of_string s')
      then afterLast sep s'
      else if Ascii.eqb c sep then s' else s
  end.

Definition lowerString (s : string) : string :=
  string_of_list_ascii (map GoLib.toLower (list_ascii_of_string s)).

(** [url.ParseRequestURI], without percent escapes and IPv6 literals. *)
Definition url_ParseRequestURI (rawURL : string) : result URL :=
  if String.eqb rawURL "" then Err "empty url"
  else if existsb (fun c => Nat.ltb (nat_of_ascii c) 32 || Nat.eqb (nat_of_ascii c) 127)
            (list_ascii_of_string rawURL)
  then Err "invalid control character in URL"
  else if String.eqb rawURL "*" then Ok (mkURL "" "")
  else
    match
      match getScheme true rawURL with
      | MissingScheme => Err "missing protocol scheme"
      | NoScheme => Ok ("", rawURL)
      | FoundScheme sch rest => Ok (lowerString sch, rest)
      end
    with
    | Err e => Err e
    | Ok (scheme, rest) =>
        let rest := (cut "?" rest).1 in
        match rest with
        | String "/" (String "/" authority) =>
            if String.eqb scheme "" then Ok (mkURL scheme "")
            else
              let host := afterLast "@" (cut "/" authority).1 in
              Ok (mkURL scheme (cut ":" host).1)
        | String "/" _ => Ok (mkURL scheme "")
        | _ =>
            if String.eqb scheme "" then Err "invalid URI for request"
            else Ok (mkURL scheme "")
        end
    end.

Definition StrInSlice (s : string) (l : list string) : bool :=
  existsb (String.eqb s) l.

(** Modelled from the spec: the scan of a template, whose placeholders are
    written [[field]]; a placeholder left open is malformed. *)
Fixpoint scanFrom (open : bool) (s : string) : option error :=
  match s with
  | EmptyString => if open then Some "invalid token" else None
  | String c s' =>
      if open then scanFrom (negb (Ascii.eqb c "]")) s'
      else scanFrom (Ascii.eqb c "[") s'
  end.

Definition ScanTokens (s : string) (removeEscapeChar : bool) : option error :=
  scanFrom false s.

(** Modelled from the spec: the allow-list of methods. *)
Definition supportedMethods : gset string :=
  list_to_set
    ["GET"; "HEAD"; "POST"; "PUT"; "PATCH"; "DELETE"; "CONNECT"; "OPTIONS"; "TRACE"].

(** Regular expressions made of literal bytes, [.] and [*]. *)
Inductive Atom : Type :=
| Lit (c : ascii)
| AnyChar.

Definition isMeta (c : ascii) : bool :=
  existsb (Ascii.eqb c)
    (ascii_of_nat 92 :: ["("; ")"; "["; "]"; "{"; "}"; "+"; "?"; "|"; "^"; "$"]%char).

Fixpoint parseRegexp (s : string) : result (list (Atom * bool)) :=
  match s with
  | EmptyString => Ok []
  | String c s' =>
      if Ascii.eqb c "*" then Err "missing argument to repetition operator: `*`"
      else if isMeta c then Err "operator outside the fragment"
      else
        let atom := if Ascii.eqb c "." then AnyChar else Lit c in
        match s' with
        | String "*" s'' =>
            match parseRegexp s'' with
            | Ok items => Ok ((atom, true) :: items)
            | Err e => Err e
            end
        | _ =>
            match parseRegexp s' with
            | Ok items => Ok ((atom, false) :: items)
            | Err e => Err e
            end
        end
  end.

Definition atomMatches (a : Atom) (c : ascii) : bool :=
  match a with
  | Lit c' => Ascii.eqb c c'
  | AnyChar => negb (Nat.eqb (nat_of_ascii c) 10)
  end.

(** [items] match a prefix of [s]. *)
Fixpoint matchHere (items : list (Atom * bool)) (s : string) {struct items} : bool :=
  match items with
  | [] => true
  | (a, false) :: rest =>
      match s with
      | String c s' => atomMatches a c && matchHere rest s'
      | EmptyString => false
      end
  | (a, true) :: rest =>
      (fix star (s : string) : bool :=
         matchHere rest s
         || match s with
            | String c s' => atomMatches a c && star s'
            | EmptyString => false
            end) s
  end.

(** [items] match somewhere in [s], as [MatchString] asks. *)
Fixpoint matchAnywhere (items : list (Atom * bool)) (s : string) : bool :=
  matchHere items s
  || match s with
     | String _ s' => matchAnywhere items s'
     | EmptyString => false
     end.

Definition regexp_Compile (e : string) : option error :=
  match parseRegexp e with
  | Ok _ => None
  | Err msg => Some ("error parsing regexp: " +:+ msg)
  end.

Definition regexp_MatchString (e s : string) : bool :=
  match parseRegexp e with
  | Ok items => matchAnywhere items s
  | Err _ => false
  end.

(** The files on disk: a certificate, its key and a CA bundle. *)
Definition files : gmap string string :=
  list_to_map [("client.crt", "CERTIFICATE"); ("client.key", "PRIVATE KEY");
               ("ca.pem", "CA CERTIFICATE")].

Definition tls_LoadX509KeyPair (certFile keyFile : string) : result Certificate :=
  match files !! certFile, files !! keyFile with
  | Some "CERTIFICATE", Some "PRIVATE KEY" => Ok (mkCertificate "CERTIFICATE" "PRIVATE KEY")
  | Some _, Some _ => Err "tls: failed to find certificate PEM data"
  | _, _ => Err "no such file or directory"
  end.

Definition ioutil_ReadFile (name : string) : option string * option error :=
  match files !! name with
  | Some data => (Some data, None)
  | None => (None, Some "no such file or directory")
  end.

(** A field of the task as text, for the expansion of a placeholder. *)
Definition fieldText (v : Value) : string :=
  match v with
  | VString s => s
  | VInt n => pretty n
  | _ => ""
  end.

(** Modelled from the spec: the expansion of the placeholders of a pattern
    against the task. *)
Fixpoint expand (t : Task) (token : option string) (s : string) : string :=
  match s with
  | EmptyString => match token with Some k => "[" +:+ k | None => "" end
  | String c s' =>
      match token with
      | None =>
          if Ascii.eqb c "[" then expand t (Some "") s'
          else String c (expand t None s')
      | Some k =>
          if Ascii.eqb c "]" then fieldText (Value_of t k) +:+ expand t None s'
          else expand t (Some (k +:+ String c "")) s'
      end
  end.

Definition ReplaceTokensInPattern (t : Task) (pattern : string) : string * option error :=
  (expand t None pattern, scanFrom false pattern).

Definition quote : ascii := ascii_of_nat 34.

Definition fmt_GoSyntax (v : Value) : string :=
  match v with
  | VNil => "<nil>"
  | VString s => String quote (s +:+ String quote "")
  | VInt n => pretty n
  | VReader _ => "(io.Reader)"
  | VReadCloser _ => "(io.ReadCloser)"
  | VOther repr => repr
  end.

(** [http.NewRequest] refuses a method that is not a token and a URL with a
    control character. *)
Definition http_NewRequest_error (method link : string) : option error :=
  if negb (forallb GoLib.validHeaderFieldByte (list_ascii_of_string method))
  then Some "net/http: invalid method"
  else if existsb (fun c => Nat.ltb (nat_of_ascii c) 32 || Nat.eqb (nat_of_ascii c) 127)
            (list_ascii_of_string link)
  then Some "net/url: invalid control character in URL"
  else None.

(** [task.ToString] of a status code: its decimal digits, which stay below
    the length limit. *)
Definition task_ToString (n limit : Z) : string := pretty n.

(** Package task accepts every write under a string key. *)
Definition task_WithValue_error (t : Task) (key : string) (v : Value) : option error :=
  None.

Definition env : @Externals CommonConfig :=
  mkExternals CommonConfig_Prepare plugin_name url_ParseRequestURI StrInSlice
    ScanTokens supportedMethods regexp_Compile regexp_MatchString
    tls_LoadX509KeyPair ioutil_ReadFile ReplaceTokensInPattern
    http_NewRequest_error task_ToString 1024 fmt_GoSyntax task_WithValue_error.

End Reference.

(** ** Example inputs *)

Module Examples.

Import Reference.

(** A configuration as a user writes it: padded fields, a pattern for 2xx. *)
Definition rawConfig : httpOutputConfig :=
  mkConfig (mkCommon " out ") " http://example.com/a?x=1 " ∅ true "" " GET" "2.."
    120 "" "" "" false "" "" "" None None None.

(** No URL, and a method outside the allow-list. *)
Definition noURLConfig : httpOutputConfig :=
  mkConfig (mkCommon "out") "" ∅ true "" "FETCH" ".*"
    120 "" "" "" false "" "" "" None None None.

(** A good URL, and a method outside the allow-list. *)
Definition fetchConfig : httpOutputConfig :=
  mkConfig (mkCommon "out") "http://example.com/" ∅ true "" "FETCH" ".*"
    120 "" "" "" false "" "" "" None None None.

(** A method outside the allow-list, behind a header pattern whose value has
    a placeholder left open. *)
Definition fetchHeaderEntries : list (string * string) :=
  [("X-A", "ok"); ("X-B", "[open"); ("X-C", "[also open")].

Definition fetchHeaderConfig : httpOutputConfig :=
  mkConfig (mkCommon "out") "http://example.com/" (list_to_map fetchHeaderEntries)
    true "" "FETCH" ".*" 120 "" "" "" false "" "" "" None None None.

(** A certificate file without a key file. *)
Definition certOnlyConfig : httpOutputConfig :=
  mkConfig (mkCommon "out") "http://example.com/" ∅ true "" "GET" ".*"
    120 "client.crt" "" "" false "" "" "" None None None.

(** A certificate file with its key file. *)
Definition certKeyConfig : httpOutputConfig :=
  mkConfig (mkCommon "out") "https://example.com/" ∅ true "" "GET" ".*"
    120 "client.crt" " client.key" "ca.pem" false "" "" "" None None None.

(** Two header patterns, each invalid in its own way: a blank name, and a
    value with a placeholder left open. *)
Definition twoBadHeaders : gmap string string :=
  <[" " := "v"]> (<["X-A" := "[open"]> ∅).

Definition twoBadHeadersConfig : httpOutputConfig :=
  mkConfig (mkCommon "out") "http://example.com/" twoBadHeaders true "" "GET" ".*"
    120 "" "" "" false "" "" "" None None None.

Definition blankFirst : list (string * string) := [(" ", "v"); ("X-A", "[open")].
Definition openFirst : list (string * string) := [("X-A", "[open"); (" ", "v")].

(** [rawConfig] validated, and the plugin built from it. *)
Definition validated : httpOutputConfig := (Prepare env rawConfig [] []).1.
Definition output : httpOutput := HTTPOutputConstructor validated.

(** A task with nothing in it. *)
Definition task0 : Task := mkTask ∅ [] [] None.

(** A task cancelled by its owner. *)
Definition cancelledTask : Task := mkTask ∅ [] [] (Some "client gone").

Definition resp200 : Response := mkResponse 200 (mkBody 1).
Definition resp500 : Response := mkResponse 500 (mkBody 2).

(** The request body is to come from the field "in". *)
Definition streamOutput : httpOutput :=
  HTTPOutputConstructor
    (Prepare env
       (mkConfig (mkCommon "out") "http://example.com/" ∅ true "" "POST" ".*"
          120 "" "" "" false "in" "" "" None None None) [] []).1.

(** A task whose field "in" holds text, not a stream. *)
Definition textTask : Task := mkTask (<["in" := VString "text"]> ∅) [] [] None.

(** The status code and the body are to be published, and the body closed. *)
Definition publishOutput : httpOutput :=
  HTTPOutputConstructor
    (Prepare env
       (mkConfig (mkCommon "out") "http://example.com/" ∅ true "" "GET" "2.."
          120 "" "" "" false "" "code" "body" None None None) [] []).1.

(** Nothing is to be published, and the body is not to be closed. *)
Definition noCloseOutput : httpOutput :=
  HTTPOutputConstructor
    (Prepare env
       (mkConfig (mkCommon "out") "http://example.com/" ∅ false "" "GET" "2.."
          120 "" "" "" false "" "" "" None None None) [] []).1.

(** Header patterns: one that names the User-Agent header, one whose value
    has a placeholder, and one with a fixed value. *)
Definition agentEntries : list (string * string) :=
  [("user-agent", "curl/8"); ("x-trace", "[id]"); ("accept", "text/plain")].

Definition agentOutput : httpOutput :=
  HTTPOutputConstructor
    (Prepare env
       (mkConfig (mkCommon "out") "http://example.com/" (list_to_map agentEntries)
          true "" "GET" ".*" 120 "" "" "" false "" "" "" None None None)
       [] agentEntries).1.

(** The request [agentOutput] sends for a task whose field "id" is "r-17". *)
Definition agentRequest : Request :=
  mkRequest "GET" "http://example.com/" (NewBuffer "") 0
    (<["User-Agent" := ["EaseGateway"]]>
       (<["Accept" := ["text/plain"]]> (<["X-Trace" := ["r-17"]]> ∅))).

(** The request [publishOutput] sends for [task0], and the task it returns
    for the response [resp200]. *)
Definition publishRequest : Request :=
  mkRequest "GET" "http://example.com/" (NewBuffer "") 0
    (<["User-Agent" := ["EaseGateway"]]> ∅).

Definition publishedTask : Task :=
  mkTask (<["body" := VReadCloser (mkBody 1)]> (<["code" := VInt 200]> ∅)) []
    [("out-closeHTTPOutputResponseBody",
      closeHTTPOutputResponseBody "out-closeHTTPOutputResponseBody" (mkBody 1))]
    None.

(** [task0] with the status code of [resp200] written into it. *)
Definition codeTask : Task := mkTask (<["code" := VInt 200]> ∅) [] [] None.

(** A schedule in which the task is cancelled while the worker already holds
    a response: the select takes the cancellation, [send] closes the channels
    and returns, and the worker's send panics and is recovered. *)
Definition lateSchedule : list SendProtocol.Step :=
  [SendProtocol.DoReturns (SendProtocol.DoResponse resp200);
   SendProtocol.TaskCancel "client gone";
   SendProtocol.Cancelled;
   SendProtocol.CloseE;
   SendProtocol.CloseR;
   SendProtocol.SendPanics;
   SendProtocol.Unwind].

(** The state at the end of [lateSchedule], started on [task0]. *)
Definition lateState : SendProtocol.State :=
  SendProtocol.mkState
    (SendProtocol.MReturned (None, Some "task is cancelled by client gone"))
    SendProtocol.WDone true true true
    (mkTask ∅ [("task is cancelled by client gone", ResultTaskCancelled)] []
       (Some "client gone")).

(** A task that carries a stream under "in" and a content length hint. *)
Definition streamTask : Task :=
  mkTask (<["HTTP_CONTENT_LENGTH" := VString "42"]>
            (<["in" := VReader (StreamReader 7)]> ∅)) [] [] None.

(** The request [streamOutput] sends for [streamTask]. *)
Definition streamRequest : Request :=
  mkRequest "POST" "http://example.com/" (LimitReader (StreamReader 7) 42) 42
    (<["User-Agent" := ["EaseGateway"]]> ∅).

(** Two header patterns under different names, in the two orders. *)
Definition traceFirst : list (string * string) :=
  [("x-trace", "[id]"); ("accept", "text/plain")].
Definition acceptFirst : list (string * string) :=
  [("accept", "text/plain"); ("x-trace", "[id]")].

Definition headersOutput : httpOutput :=
  HTTPOutputConstructor
    (Prepare env
       (mkConfig (mkCommon "out") "http://example.com/" (list_to_map traceFirst)
          true "" "GET" ".*" 120 "" "" "" false "" "" "" None None None)
       [] traceFirst).1.

(** A task with the field the pattern "[id]" names. *)
Definition idTask : Task := mkTask (<["id" := VString "r-17"]> ∅) [] [] None.


(** The state of [lateSchedule] when [send] has returned and the worker still
    holds its response. *)
Definition returnedState : SendProtocol.State :=
  SendProtocol.mkState
    (SendProtocol.MReturned (None, Some "task is cancelled by client gone"))
    (SendProtocol.WSendResp (Some resp200)) true true true
    (mkTask ∅ [("task is cancelled by client gone", ResultTaskCancelled)] []
       (Some "client gone")).

(** A configuration that was never validated. *)
Definition unvalidatedOutput : httpOutput := HTTPOutputConstructor certOnlyConfig.

End Examples.

(** ** Properties of [strings.TrimSpace] *)

Module GoStringsFacts.

Import GoStrings.

Lemma trimLeft_fixed s : startsSpace s = false -> trimLeft s = s.
Proof.
  destruct s as [|c1 [|c2 [|c3 s3]]]; simpl; intros H; try reflexivity.
  - destruct (asciiSpace c1); [discriminate | reflexivity].
  - destruct (asciiSpace c1); [discriminate |].
    destruct (space2 c1 c2); [discriminate | reflexivity].
  - destruct (asciiSpace c1); [discriminate |].
    destruct (space2 c1 c2); [discriminate |].
    destruct (space3 c1 c2 c3); [discriminate | reflexivity].
Qed.

Lemma trimLeftRev_fixed s : endsSpace s = false -> trimLeftRev s = s.
Proof.
  destruct s as [|c1 [|c2 [|c3 s3]]]; simpl; intros H; try reflexivity.
  - destruct (asciiSpace c1); [discriminate | reflexivity].
  - destruct (asciiSpace c1); [discriminate |].
    destruct (space2 c2 c1); [discriminate | reflexivity].
  - destruct (asciiSpace c1); [discriminate |].
    destruct (space2 c2 c1); [discriminate |].
    destruct (space3 c3 c2 c1); [discriminate | reflexivity].
Qed.

(** What is left after the scan does not start with white space, and is a
    suffix of the input. *)
Lemma trimLeft_spec n : forall s, (length s <= n)%nat ->
  startsSpace (trimLeft s) = false /\ exists p, s = p ++ trimLeft s.
Proof.
  induction n as [|n IH]; intros s Hn.
  - destruct s; [|simpl in Hn; lia]. split; [reflexivity | exists []; reflexivity].
  - destruct s as [|c1 s1]; [split; [reflexivity | exists []; reflexivity]|].
    simpl in Hn. cbn [trimLeft].
    destruct (asciiSpace c1) eqn:E1.
    { destruct (IH s1 ltac:(lia)) as [H [p Hp]]. split; [exact H|].
      exists (c1 :: p). simpl. congruence. }
    destruct s1 as [|c2 s2].
    { split; [simpl; rewrite E1; reflexivity | exists []; reflexivity]. }
    simpl in Hn.
    destruct (space2 c1 c2) eqn:E2.
    { destruct (IH s2 ltac:(lia)) as [H [p Hp]]. split; [exact H|].
      exists (c1 :: c2 :: p). simpl. congruence. }
    destruct s2 as [|c3 s3].
    { split; [simpl; rewrite E1, E2; reflexivity | exists []; reflexivity]. }
    simpl in Hn.
    destruct (space3 c1 c2 c3) eqn:E3.
    { destruct (IH s3 ltac:(lia)) as [H [p Hp]]. split; [exact H|].
      exists (c1 :: c2 :: c3 :: p). simpl. congruence. }
    split; [simpl; rewrite E1, E2, E3; reflexivity | exists []; reflexivity].
Qed.

Lemma trimLeftRev_spec n : forall s, (length s <= n)%nat ->
  endsSpace (trimLeftRev s) = false /\ exists p, s = p ++ trimLeftRev s.
Proof.
  induction n as [|n IH]; intros s Hn.
  - destruct s; [|simpl in Hn; lia]. split; [reflexivity | exists []; reflexivity].
  - destruct s as [|c1 s1]; [split; [reflexivity | exists []; reflexivity]|].
    simpl in Hn. cbn [trimLeftRev].
    destruct (asciiSpace c1) eqn:E1.
    { destruct (IH s1 ltac:(lia)) as [H [p Hp]]. split; [exact H|].
      exists (c1 :: p). simpl. congruence. }
    destruct s1 as [|c2 s2].
    { split; [simpl; rewrite E1; reflexivity | exists []; reflexivity]. }
    simpl in Hn.
    destruct (space2 c2 c1) eqn:E2.
    { destruct (IH s2 ltac:(lia)) as [H [p Hp]]. split; [exact H|].
      exists (c1 :: c2 :: p). simpl. congruence. }
    destruct s2 as [|c3 s3].
    { split; [simpl; rewrite E1, E2; reflexivity | exists []; reflexivity]. }
    simpl in Hn.
    destruct (space3 c3 c2 c1) eqn:E3.
    { destruct (IH s3 ltac:(lia)) as [H [p Hp]]. split; [exact H|].
      exists (c1 :: c2 :: c3 :: p). simpl. congruence. }
    split; [simpl; rewrite E1, E2, E3; reflexivity | exists []; reflexivity].
Qed.

(** A prefix that starts with white space makes the whole string start with
    white space — except that a rune needs all its bytes: the prefix must be
    non-empty for the statement to say anything. *)
Lemma startsSpace_prefix p q : startsSpace p = true -> startsSpace (p ++ q) = true.
Proof.
  destruct p as [|c1 [|c2 [|c3 p3]]]; simpl; intros H; try discriminate.
  - rewrite orb_false_r in H. rewrite H. reflexivity.
  - rewrite orb_false_r in H.
    destruct (asciiSpace c1); [reflexivity|]. simpl in *. rewrite H. reflexivity.
  - exact H.
Qed.

Lemma trimRight_prefix s : exists q, s = trimRight s ++ q.
Proof.
  unfold trimRight.
  destruct (trimLeftRev_spec (length (rev s)) (rev s) (le_n _)) as [_ [p Hp]].
  exists (rev p).
  rewrite <- rev_app_distr, <- Hp, rev_involutive. reflexivity.
Qed.

Lemma trimRight_fixed s : endsSpace (rev s) = false -> trimRight s = s.
Proof.
  intros H. unfold trimRight. rewrite trimLeftRev_fixed by exact H.
  apply rev_involutive.
Qed.

Lemma trimRight_ends s : endsSpace (rev (trimRight s)) = false.
Proof.
  unfold trimRight. rewrite rev_involutive.
  apply (trimLeftRev_spec (length (rev s)) (rev s) (le_n _)).
Qed.

Lemma trimRight_keeps_start s :
  startsSpace s = false -> startsSpace (trimRight s) = false.
Proof.
  intros H. destruct (trimRight_prefix s) as [q Hq].
  destruct (startsSpace (trimRight s)) eqn:E; [|reflexivity].
  apply (startsSpace_prefix _ q) in E. rewrite <- Hq in E. congruence.
Qed.

(** Trimming what is already trimmed changes nothing. *)
Lemma TrimSpace_idempotent s : TrimSpace (TrimSpace s) = TrimSpace s.
Proof.
  unfold TrimSpace. rewrite list_ascii_of_string_of_list_ascii.
  set (l := list_ascii_of_string s).
  assert (Hs : startsSpace (trimLeft l) = false)
    by apply (trimLeft_spec (length l) l (le_n _)).
  rewrite (trimLeft_fixed (trimRight (trimLeft l)))
    by (apply trimRight_keeps_start; exact Hs).
  rewrite (trimRight_fixed (trimRight (trimLeft l)))
    by apply trimRight_ends.
  reflexivity.
Qed.

Example TrimSpace_ascii : TrimSpace "  GET " = "GET".
Proof. reflexivity. Qed.

Example TrimSpace_blank : TrimSpace "   " = "".
Proof. reflexivity. Qed.


End GoStringsFacts.

(** ** Properties of [Prepare] *)

(** The configuration a successful call returns, put in place of its name. *)
Ltac take_result c' :=
  let H := fresh "H" in
  intros H; apply (f_equal fst) in H; simpl in H; subst c'.

Section PrepareFacts.

Context {CommonConfig : Type} (E : @Externals CommonConfig).

Implicit Types (c : @httpOutputConfig CommonConfig) (names : list string)
  (entries : list (string * string)).

(** The loop over the header patterns passes exactly when every entry does. *)
Lemma checkHeaders_None entries :
  checkHeaders E entries = None <->
  Forall (fun nv => checkHeader E nv.1 nv.2 = None) entries.
Proof.
  induction entries as [|[name value] rest IH]; simpl.
  - split; [constructor | reflexivity].
  - destruct (checkHeader E name value) eqn:Hc.
    + split; [discriminate | intros H; inversion H; simpl in *; congruence].
    + rewrite IH. split; [intros H; constructor; [exact Hc | exact H]|].
      intros H; inversion H; assumption.
Qed.

(** Whether the loop passes does not depend on the order of the entries. *)
Lemma checkHeaders_None_perm entries1 entries2 :
  entries1 ≡ₚ entries2 ->
  checkHeaders E entries1 = None -> checkHeaders E entries2 = None.
Proof.
  intros Hp. rewrite !checkHeaders_None. intros H.
  eapply Permutation_Forall; [exact Hp | exact H].
Qed.

(** The error of the loop over the header patterns is that of the first
    entry, in the order of the iteration, that does not pass. *)
Lemma checkHeaders_first entries : forall e,
  checkHeaders E entries = Some e ->
  exists before name value after,
    entries = before ++ (name, value) :: after
    /\ Forall (fun nv => checkHeader E nv.1 nv.2 = None) before
    /\ checkHeader E name value = Some e.
Proof.
  induction entries as [|[name value] rest IH]; intros e; simpl; [discriminate|].
  destruct (checkHeader E name value) as [e0|] eqn:Hc.
  - intros [= <-]. exists [], name, value, rest. repeat split; [constructor | exact Hc].
  - intros He. destruct (IH e He) as (before & n & v & after & -> & Hb & Hv).
    exists ((name, value) :: before), n, v, after.
    repeat split; [constructor; [exact Hc | exact Hb] | exact Hv].
Qed.

(** C3, as the code has it. A configuration whose method, once trimmed, is
    outside the allow-list never passes validation, whatever its other
    fields. The error is the method error when the checks of the common
    part, the URL, the URL pattern and the header patterns pass. These are
    made first, in this order, and otherwise the error is that of the first
    of them that fails: the error of the common part; else "invalid url";
    else "invalid url pattern"; else the error of the first header pattern,
    in the order of the iteration, that does not pass. *)
Theorem Prepare_unsupported_method c names entries :
  GoStrings.TrimSpace (Method c) ∉ supportedMethods E ->
  exists e, (Prepare E c names entries).2 = Some e
    /\ (earlierChecksPass E c names entries -> e = "invalid http method")
    /\ (forall e0, (CommonConfig_Prepare E (Common c) names).2 = Some e0 -> e = e0)
    /\ ((CommonConfig_Prepare E (Common c) names).2 = None ->
        invalidURL E (GoStrings.TrimSpace (URLPattern c)) = true ->
        e = "invalid url")
    /\ ((CommonConfig_Prepare E (Common c) names).2 = None ->
        invalidURL E (GoStrings.TrimSpace (URLPattern c)) = false ->
        ScanTokens E (GoStrings.TrimSpace (URLPattern c)) false <> None ->
        e = "invalid url pattern")
    /\ ((CommonConfig_Prepare E (Common c) names).2 = None ->
        invalidURL E (GoStrings.TrimSpace (URLPattern c)) = false ->
        ScanTokens E (GoStrings.TrimSpace (URLPattern c)) false = None ->
        forall e0, checkHeaders E entries = Some e0 ->
          e = e0
          /\ exists before name value after,
               entries = before ++ (name, value) :: after
               /\ Forall (fun nv => checkHeader E nv.1 nv.2 = None) before
               /\ checkHeader E name value = Some e0).
Proof.
  intros Hm. unfold Prepare, earlierChecksPass.
  destruct (CommonConfig_Prepare E (Common c) names) as [cc [e|]]; simpl.
  { exists e. split; [reflexivity|]. split; [intros [H _]; discriminate|].
    split; [intros e0 [= <-]; reflexivity|].
    repeat split; intros; discriminate. }
  destruct (invalidURL E (GoStrings.TrimSpace (URLPattern c))) eqn:Hu.
  { eexists. split; [reflexivity|]. split; [intros (_ & H & _); discriminate|].
    split; [intros e0; discriminate|]. split; [reflexivity|].
    split; intros; discriminate. }
  destruct (ScanTokens E (GoStrings.TrimSpace (URLPattern c)) false) eqn:Hs.
  { eexists. split; [reflexivity|]. split; [intros (_ & _ & H & _); discriminate|].
    split; [intros e0; discriminate|]. split; [intros; discriminate|].
    split; [reflexivity | intros; discriminate]. }
  destruct (checkHeaders E entries) as [eh|] eqn:Hh.
  { exists eh. split; [reflexivity|]. split; [intros (_ & _ & _ & H); discriminate|].
    split; [intros e0; discriminate|]. split; [intros; discriminate|].
    split; [intros _ _ H; contradiction|].
    intros _ _ _ e0 [= <-]. split; [reflexivity|].
    apply checkHeaders_first. exact Hh. }
  rewrite bool_decide_eq_false_2 by exact Hm. simpl.
  eexists. split; [reflexivity|]. split; [reflexivity|].
  split; [intros e0; discriminate|]. split; [intros; discriminate|].
  split; [intros _ _ H; contradiction | intros; discriminate].
Qed.


(** C4, as the code has it. With exactly one of the two file names (or none)
    the pair is ignored: validation ends as it does without them and the
    certificate of the configuration is left as it was. With both, validation
    passes only if they load as a key pair, which is then the certificate of
    the configuration and the one certificate the constructor installs. *)
Theorem Prepare_client_certificate c names entries :
  (keyPairGiven c = false ->
     (Prepare E c names entries).2 = (Prepare E (withoutKeyPair c) names entries).2
     /\ cert (Prepare E c names entries).1 = cert c)
  /\ (forall c', Prepare E c names entries = (c', None) ->
        if keyPairGiven c
        then exists crt,
               tls_LoadX509KeyPair E (GoStrings.TrimSpace (CertFile c))
                 (GoStrings.TrimSpace (KeyFile c)) = Ok crt
               /\ cert c' = Some crt
               /\ Certificates (TLSClientConfig (client (HTTPOutputConstructor c'))) = [crt]
        else cert c' = cert c
             /\ (cert c = None ->
                 Certificates (TLSClientConfig (client (HTTPOutputConstructor c'))) = [])).
Proof.
  unfold keyPairGiven. split.
  - intros Hg. unfold Prepare, withoutKeyPair. simpl.
    destruct (CommonConfig_Prepare E (Common c) names) as [cc [e|]]; simpl;
      [split; reflexivity|].
    rewrite Hg.
    destruct (invalidURL E _); [split; reflexivity|].
    destruct (ScanTokens E (GoStrings.TrimSpace (URLPattern c)) false);
      [split; reflexivity|].
    destruct (checkHeaders E entries); [split; reflexivity|].
    destruct (bool_decide _); simpl; [|split; reflexivity].
    destruct (regexp_Compile E _); [split; reflexivity|]. simpl.
    destruct (ScanTokens E (RequestBodyBufferPattern c) false);
      [split; reflexivity|]. simpl.
    destruct (Nat.eqb (String.length (GoStrings.TrimSpace (CAFile c))) 0); simpl;
      [split; reflexivity|].
    destruct (ioutil_ReadFile E _) as [data [e|]]; split; reflexivity.
  - intros c'. unfold Prepare. simpl.
    destruct (CommonConfig_Prepare E (Common c) names) as [cc [e|]]; simpl;
      [discriminate|].
    destruct (invalidURL E _); [discriminate|].
    destruct (ScanTokens E (GoStrings.TrimSpace (URLPattern c)) false);
      [discriminate|].
    destruct (checkHeaders E entries); [discriminate|].
    destruct (bool_decide _); simpl; [|discriminate].
    destruct (regexp_Compile E _); [discriminate|]. simpl.
    destruct (ScanTokens E (RequestBodyBufferPattern c) false);
      [discriminate|]. simpl.
    destruct (_ && _) eqn:Hg.
    + destruct (tls_LoadX509KeyPair E _ _) as [crt|e] eqn:Hl; [|discriminate].
      simpl.
      destruct (Nat.eqb (String.length (GoStrings.TrimSpace (CAFile c))) 0); simpl.
      * take_result c'. exists crt. simpl. repeat split.
        destruct (caCert c); reflexivity.
      * destruct (ioutil_ReadFile E _) as [data [e|]]; [discriminate|].
        take_result c'. exists crt. simpl. repeat split.
        destruct data; reflexivity.
    + simpl.
      destruct (Nat.eqb (String.length (GoStrings.TrimSpace (CAFile c))) 0); simpl.
      * take_result c'. simpl. split; [reflexivity|]. intros ->.
        destruct (caCert c); reflexivity.
      * destruct (ioutil_ReadFile E _) as [data [e|]]; [discriminate|].
        take_result c'. simpl. split; [reflexivity|]. intros ->.
        destruct data; reflexivity.
Qed.

(** Two configurations with the same fields are the same. *)
Lemma config_ext c1 c2 :
  Common c1 = Common c2 -> URLPattern c1 = URLPattern c2 ->
  HeaderPatterns c1 = HeaderPatterns c2 -> Close c1 = Close c2 ->
  RequestBodyBufferPattern c1 = RequestBodyBufferPattern c2 ->
  Method c1 = Method c2 -> ExpectedResponseCode c1 = ExpectedResponseCode c2 ->
  TimeoutSec c1 = TimeoutSec c2 -> CertFile c1 = CertFile c2 ->
  KeyFile c1 = KeyFile c2 -> CAFile c1 = CAFile c2 -> Insecure c1 = Insecure c2 ->
  RequestBodyIOKey c1 = RequestBodyIOKey c2 ->
  ResponseCodeKey c1 = ResponseCodeKey c2 ->
  ResponseBodyIOKey c1 = ResponseBodyIOKey c2 ->
  expectedResponseCode c1 = expectedResponseCode c2 ->
  cert c1 = cert c2 -> caCert c1 = caCert c2 ->
  c1 = c2.
Proof. destruct c1, c2; simpl; intros; subst; reflexivity. Qed.

(** Fields trimmed twice are fields trimmed once. *)
Ltac retrim := simpl; rewrite ?GoStringsFacts.TrimSpace_idempotent.

(** The second validation returns the configuration it was given. *)
Ltac same_config :=
  apply (f_equal2 pair); [|reflexivity];
  apply config_ext; simpl; rewrite ?GoStringsFacts.TrimSpace_idempotent;
  reflexivity.

(** C8, as the code has it. Validating the configuration that a successful
    validation produced succeeds and leaves it as it is, whatever the order
    in which the header patterns are visited, provided the common part's own
    [Prepare] is idempotent. Validating the same raw input again fails if it
    failed, with the same error unless the error comes from the loop over the
    header patterns, where it is that of the first invalid entry the
    iteration meets. *)
Theorem Prepare_idempotent c names entries1 entries2 :
  rangeOrder (HeaderPatterns c) entries1 ->
  rangeOrder (HeaderPatterns c) entries2 ->
  (forall c', Prepare E c names entries1 = (c', None) ->
     CommonConfig_Prepare E (Common c') names = (Common c', None) ->
     Prepare E c' names entries2 = (c', None))
  /\ (forall e1, (Prepare E c names entries1).2 = Some e1 ->
        exists e2, (Prepare E c names entries2).2 = Some e2
          /\ (e2 = e1
              \/ (checkHeaders E entries1 = Some e1
                  /\ checkHeaders E entries2 = Some e2))).
Proof.
  unfold rangeOrder. intros Hp1 Hp2.
  assert (Hp : entries1 ≡ₚ entries2) by (rewrite Hp1, Hp2; reflexivity).
  split.
  - intros c'. unfold Prepare at 1. simpl.
    destruct (CommonConfig_Prepare E (Common c) names) as [cc [e|]]; simpl;
      [discriminate|].
    destruct (invalidURL E _) eqn:Hu; [discriminate|].
    destruct (ScanTokens E (GoStrings.TrimSpace (URLPattern c)) false) eqn:Hs;
      [discriminate|].
    destruct (checkHeaders E entries1) eqn:Hh; [discriminate|].
    apply (checkHeaders_None_perm _ _ Hp) in Hh.
    destruct (bool_decide _) eqn:Hm; simpl; [|discriminate].
    destruct (regexp_Compile E _) eqn:Hre; [discriminate|]. simpl.
    destruct (ScanTokens E (RequestBodyBufferPattern c) false) eqn:Hb;
      [discriminate|]. simpl.
    destruct (_ && _) eqn:Hg.
    + destruct (tls_LoadX509KeyPair E _ _) as [crt|e] eqn:Hl; [|discriminate].
      simpl.
      destruct (Nat.eqb (String.length (GoStrings.TrimSpace (CAFile c))) 0) eqn:Hca;
        simpl.
      * take_result c'. simpl. intros Hcc. unfold Prepare. simpl.
        rewrite Hcc. simpl.
        rewrite !GoStringsFacts.TrimSpace_idempotent.
        rewrite Hu, Hs, Hh, Hm, Hre. simpl. rewrite Hb. simpl.
        rewrite Hg, Hl. retrim. rewrite Hca. same_config.
      * destruct (ioutil_ReadFile E _) as [data [e|]] eqn:Hrd; [discriminate|].
        take_result c'. simpl. intros Hcc. unfold Prepare. simpl.
        rewrite Hcc. simpl.
        rewrite !GoStringsFacts.TrimSpace_idempotent.
        rewrite Hu, Hs, Hh, Hm, Hre. simpl. rewrite Hb. simpl.
        rewrite Hg, Hl. retrim. rewrite Hca. retrim. rewrite Hrd. same_config.
    + simpl.
      destruct (Nat.eqb (String.length (GoStrings.TrimSpace (CAFile c))) 0) eqn:Hca;
        simpl.
      * take_result c'. simpl. intros Hcc. unfold Prepare. simpl.
        rewrite Hcc. simpl.
        rewrite !GoStringsFacts.TrimSpace_idempotent.
        rewrite Hu, Hs, Hh, Hm, Hre. simpl. rewrite Hb. simpl.
        rewrite Hg. retrim. rewrite Hca. same_config.
      * destruct (ioutil_ReadFile E _) as [data [e|]] eqn:Hrd; [discriminate|].
        take_result c'. simpl. intros Hcc. unfold Prepare. simpl.
        rewrite Hcc. simpl.
        rewrite !GoStringsFacts.TrimSpace_idempotent.
        rewrite Hu, Hs, Hh, Hm, Hre. simpl. rewrite Hb. simpl.
        rewrite Hg. retrim. rewrite Hca. retrim. rewrite Hrd. same_config.
  - intros e1. unfold Prepare. simpl.
    destruct (CommonConfig_Prepare E (Common c) names) as [cc [e|]]; simpl;
      [intros [= <-]; eauto|].
    destruct (invalidURL E _) eqn:Hu; [intros [= <-]; eauto|].
    destruct (ScanTokens E (GoStrings.TrimSpace (URLPattern c)) false) eqn:Hs;
      [intros [= <-]; eauto|].
    destruct (checkHeaders E entries1) as [e|] eqn:Hh1.
    { intros [= <-]. destruct (checkHeaders E entries2) as [e2|] eqn:Hh2.
      - exists e2. split; [reflexivity | right; split; reflexivity].
      - apply (checkHeaders_None_perm _ _ (Permutation_sym Hp)) in Hh2.
        congruence. }
    rewrite (checkHeaders_None_perm _ _ Hp Hh1).
    intros H. exists e1. split; [exact H | left; reflexivity].
Qed.

End PrepareFacts.

(** ** [Prepare] on the example inputs *)

Module PrepareExamples.

Import Examples.

(** Membership in a set that is given in full, by computation. *)
Ltac not_elem :=
  match goal with
  | |- ?x ∉ ?X => apply (bool_decide_eq_false_1 (x ∈ X)); vm_compute; reflexivity
  end.

Example Prepare_rawConfig :
  Prepare Reference.env rawConfig [] []
  = (mkConfig (Reference.mkCommon "out") "http://example.com/a?x=1" ∅ true ""
       "GET" "2.." 120 "" "" "" false "" "" "" (Some (mkRegexp "2..")) None None,
     None).
Proof. vm_compute. reflexivity. Qed.

(** C3 fails as stated: the method is outside the allow-list, and the error is
    the URL error, not the method error. *)
Lemma Prepare_reports_url_before_method :
  (GoStrings.TrimSpace (Method noURLConfig) ∉ supportedMethods Reference.env)
  /\ (Method noURLConfig ∉ supportedMethods Reference.env)
  /\ (Prepare Reference.env noURLConfig [] []).2 = Some "invalid url"
  /\ (Prepare Reference.env noURLConfig [] []).2 <> Some "invalid http method".
Proof.
  split; [not_elem|].
  split; [not_elem|].
  split; [vm_compute; reflexivity | vm_compute; discriminate].
Qed.

(** The method error when the earlier checks pass, and the error of the
    first earlier check that fails otherwise: the URL, or the one header
    pattern that is malformed. *)
Lemma Prepare_unsupported_method_witness :
  (GoStrings.TrimSpace (Method fetchConfig) ∉ supportedMethods Reference.env)
  /\ (Prepare Reference.env fetchConfig [] []).2 = Some "invalid http method"
  /\ (Prepare Reference.env noURLConfig [] []).2 = Some "invalid url"
  /\ (Prepare Reference.env fetchHeaderConfig [] fetchHeaderEntries).2
     = Some "invalid header value pattern".
Proof.
  assert (H : GoStrings.TrimSpace "FETCH" ∉ supportedMethods Reference.env)
    by (not_elem).
  split; [exact H|]. split; [|split].
  - destruct (Prepare_unsupported_method Reference.env fetchConfig [] [] H)
      as (e & -> & Hpass & _).
    f_equal. apply Hpass. repeat split; vm_compute; reflexivity.
  - destruct (Prepare_unsupported_method Reference.env noURLConfig [] [] H)
      as (e & -> & _ & _ & Hurl & _).
    f_equal. apply Hurl; vm_compute; reflexivity.
  - destruct (Prepare_unsupported_method Reference.env fetchHeaderConfig []
                fetchHeaderEntries H)
      as (e & -> & _ & _ & _ & _ & Hhdr).
    f_equal.
    apply (Hhdr ltac:(vm_compute; reflexivity) ltac:(vm_compute; reflexivity)
             ltac:(vm_compute; reflexivity) "invalid header value pattern").
    vm_compute. reflexivity.
Defined.

(** C4 fails as stated: a certificate file without a key file passes
    validation, and no certificate is loaded. *)
Lemma Prepare_accepts_certificate_without_key :
  GoStrings.TrimSpace (CertFile certOnlyConfig) = "client.crt"
  /\ GoStrings.TrimSpace (KeyFile certOnlyConfig) = ""
  /\ (Prepare Reference.env certOnlyConfig [] []).2 = None
  /\ cert (Prepare Reference.env certOnlyConfig [] []).1 = None.
Proof. repeat split; vm_compute; reflexivity. Qed.

(** With both files the pair is loaded and installed. *)
Example Prepare_certKeyConfig :
  (Prepare Reference.env certKeyConfig [] []).2 = None
  /\ Certificates (TLSClientConfig (client
        (HTTPOutputConstructor (Prepare Reference.env certKeyConfig [] []).1)))
     = [mkCertificate "CERTIFICATE" "PRIVATE KEY"]
  /\ RootCAs (TLSClientConfig (client
        (HTTPOutputConstructor (Prepare Reference.env certKeyConfig [] []).1)))
     = Some "CA CERTIFICATE".
Proof. repeat split; vm_compute; reflexivity. Qed.

(** Both files given: the pair is loaded and installed. *)
Lemma Prepare_client_certificate_witness :
  keyPairGiven certKeyConfig = true
  /\ (Prepare Reference.env certKeyConfig [] []).2 = None
  /\ exists crt,
       tls_LoadX509KeyPair Reference.env
         (GoStrings.TrimSpace (CertFile certKeyConfig))
         (GoStrings.TrimSpace (KeyFile certKeyConfig)) = Ok crt
       /\ cert (Prepare Reference.env certKeyConfig [] []).1 = Some crt
       /\ Certificates (TLSClientConfig (client
             (HTTPOutputConstructor (Prepare Reference.env certKeyConfig [] []).1)))
          = [crt].
Proof.
  split; [vm_compute; reflexivity|]. split; [vm_compute; reflexivity|].
  assert (H : Prepare Reference.env certKeyConfig [] []
              = ((Prepare Reference.env certKeyConfig [] []).1, None))
    by (vm_compute; reflexivity).
  pose proof (proj2 (Prepare_client_certificate Reference.env certKeyConfig [] [])
                _ H) as Hc.
  change (keyPairGiven certKeyConfig) with true in Hc. exact Hc.
Defined.

Lemma twoBadHeaders_orders :
  rangeOrder twoBadHeaders blankFirst /\ rangeOrder twoBadHeaders openFirst.
Proof.
  unfold rangeOrder, twoBadHeaders, blankFirst, openFirst.
  rewrite map_to_list_insert by (vm_compute; reflexivity).
  rewrite map_to_list_insert by (vm_compute; reflexivity).
  rewrite map_to_list_empty.
  split; [reflexivity | apply perm_swap].
Qed.

(** C8 fails as stated: the same raw input, validated twice, gives two
    different errors when the loop of line 87 meets its two invalid header
    patterns in a different order. *)
Lemma Prepare_error_depends_on_order :
  rangeOrder (HeaderPatterns twoBadHeadersConfig) blankFirst
  /\ rangeOrder (HeaderPatterns twoBadHeadersConfig) openFirst
  /\ (Prepare Reference.env twoBadHeadersConfig [] blankFirst).2
     = Some "invalid header name"
  /\ (Prepare Reference.env twoBadHeadersConfig [] openFirst).2
     = Some "invalid header value pattern".
Proof.
  split; [apply twoBadHeaders_orders|].
  split; [apply twoBadHeaders_orders|].
  split; vm_compute; reflexivity.
Qed.

Lemma rangeOrder_empty : rangeOrder (HeaderPatterns rawConfig) [].
Proof. unfold rangeOrder. simpl. rewrite map_to_list_empty. reflexivity. Defined.

(** Validation of [rawConfig], and of what it produced. *)
Lemma Prepare_idempotent_witness :
  (forall c', Prepare Reference.env rawConfig [] [] = (c', None) ->
     CommonConfig_Prepare Reference.env (Common c') [] = (Common c', None) ->
     Prepare Reference.env c' [] [] = (c', None))
  /\ (forall e1, (Prepare Reference.env rawConfig [] []).2 = Some e1 ->
        exists e2, (Prepare Reference.env rawConfig [] []).2 = Some e2
          /\ (e2 = e1
              \/ (checkHeaders Reference.env [] = Some e1
                  /\ checkHeaders Reference.env [] = Some e2))).
Proof.
  exact (Prepare_idempotent Reference.env rawConfig [] [] []
           rangeOrder_empty rangeOrder_empty).
Defined.

(** The second validation of [rawConfig], computed. *)
Example Prepare_twice :
  Prepare Reference.env (Prepare Reference.env rawConfig [] []).1 [] []
  = Prepare Reference.env rawConfig [] [].
Proof. vm_compute. reflexivity. Qed.

End PrepareExamples.

(** ** Properties of [Run] *)

Section RunFacts.

Context {CommonConfig : Type} (E : @Externals CommonConfig).

Implicit Types (h : @httpOutput CommonConfig) (t : Task)
  (entries : list (string * string)) (out : SendOutcome).

Lemma length_nonempty (s : string) :
  s <> "" -> Nat.eqb (String.length s) 0 = false.
Proof. destruct s; [congruence | reflexivity]. Qed.

(** A field that is not set reads as nil, which is no stream. *)
Lemma asReader_absent t key :
  task_values t !! key = None -> asReader (Value_of t key) = None.
Proof. unfold Value_of. intros ->. reflexivity. Qed.

Lemma asReader_present t key v :
  task_values t !! key = Some v -> asReader (Value_of t key) = asReader v.
Proof. unfold Value_of. intros ->. reflexivity. Qed.

(** C6. With a stream key configured and no stream under it, [Run] records
    the missing-input error and returns at once: no request is built and
    nothing is sent. *)
Theorem Run_missing_input h entries out t :
  RequestBodyIOKey (conf h) <> "" ->
  (task_values t !! RequestBodyIOKey (conf h) = None
   \/ exists v, task_values t !! RequestBodyIOKey (conf h) = Some v
               /\ asReader v = None) ->
  exists err,
    Run E h entries out t = (Return (SetError t err ResultMissingInput) None, [])
    /\ Error_of (SetError t err ResultMissingInput) = Some (err, ResultMissingInput).
Proof.
  intros Hkey Hval.
  assert (Hr : asReader (Value_of t (RequestBodyIOKey (conf h))) = None).
  { destruct Hval as [Hn | (v & Hv & Hr)].
    - apply asReader_absent, Hn.
    - rewrite (asReader_present _ _ _ Hv). exact Hr. }
  unfold Run, buildRequest, requestBody.
  rewrite (length_nonempty _ Hkey). simpl. rewrite Hr.
  eexists. split; reflexivity.
Qed.

(** What [Run] does once a request is built. *)
Lemma Run_dispatch h entries out t req evs :
  buildRequest E h entries t = (inr req, evs) ->
  Run E h entries out t
  = match send out t with
    | (t', (_, Some _)) => (Return t' None, evs ++ send_events out req)
    | (t', (None, None)) => (Panic "nil *http.Response", evs ++ send_events out req)
    | (t', (Some resp, None)) => (mapResponse E h t' resp, evs ++ send_events out req)
    end.
Proof. intros Hb. unfold Run. rewrite Hb. reflexivity. Qed.

(** C5. When the call succeeds and the status code does not match the
    expected pattern, [Run] records an internal error and returns; the fields
    and the callbacks of the task are as they were. *)
Theorem Run_code_mismatch h entries t req evs resp re :
  buildRequest E h entries t = (inr req, evs) ->
  expectedResponseCode (conf h) = Some re ->
  regexp_MatchString E (expr re)
    (task_ToString E (StatusCode resp) (PluginIODataFormatLengthLimit E)) = false ->
  exists t' err,
    Run E h entries (GotResponse resp) t = (Return t' None, evs ++ [EvDo req])
    /\ Error_of t' = Some (err, ResultInternalServerError)
    /\ task_values t' = task_values t
    /\ task_callbacks t' = task_callbacks t.
Proof.
  intros Hb Hre Hm. rewrite (Run_dispatch _ _ _ _ _ _ Hb). simpl.
  unfold mapResponse. rewrite Hre, Hm. simpl.
  eexists _, _. repeat split.
Qed.

(** [WithValue] touches neither the errors nor the callbacks. *)
Lemma WithValue_frame t key v t' err :
  WithValue E t key v = (t', err) ->
  task_errors t' = task_errors t /\ task_callbacks t' = task_callbacks t.
Proof.
  unfold WithValue. destruct (task_WithValue_error E t key v);
    intros [= <- <-]; split; reflexivity.
Qed.

(** The same for a write that is made only when a key is configured. *)
Lemma publish_frame (configured : bool) t key v t' err :
  (if configured then WithValue E t key v else (t, None)) = (t', err) ->
  task_errors t' = task_errors t /\ task_callbacks t' = task_callbacks t.
Proof.
  destruct configured; [apply WithValue_frame|].
  intros [= <- <-]. split; reflexivity.
Qed.

(** With a compiled pattern, the mapping of the response returns: either it
    records one internal error, or the code matched and nothing is recorded. *)
Lemma mapResponse_returns h t resp re :
  expectedResponseCode (conf h) = Some re ->
  exists t', mapResponse E h t resp = Return t' None
    /\ ((task_errors t' = task_errors t
         /\ regexp_MatchString E (expr re)
              (task_ToString E (StatusCode resp) (PluginIODataFormatLengthLimit E))
            = true)
        \/ exists err, task_errors t' = (err, ResultInternalServerError) :: task_errors t).
Proof.
  intros Hre. unfold mapResponse. rewrite Hre.
  destruct (regexp_MatchString E _ _) eqn:Hm; simpl.
  2: { eexists. split; [reflexivity | right; eexists; reflexivity]. }
  destruct (if negb (Nat.eqb (String.length (ResponseCodeKey (conf h))) 0)
            then WithValue E t (ResponseCodeKey (conf h)) (VInt (StatusCode resp))
            else (t, None)) as [t1 err1] eqn:H1.
  assert (F1 : task_errors t1 = task_errors t).
  { apply publish_frame in H1. tauto. }
  destruct err1 as [e1|].
  { eexists. split; [reflexivity|]. right. exists e1. simpl. congruence. }
  destruct (if negb (Nat.eqb (String.length (ResponseBodyIOKey (conf h))) 0)
            then WithValue E t1 (ResponseBodyIOKey (conf h))
                   (VReadCloser (Resp_Body resp))
            else (t1, None)) as [t2 err2] eqn:H2.
  assert (F2 : task_errors t2 = task_errors t1).
  { apply publish_frame in H2. tauto. }
  destruct err2 as [e2|].
  { eexists. split; [reflexivity|]. right. exists e2. simpl. congruence. }
  destruct (Close (conf h)); eexists; (split; [reflexivity|]); left;
    (split; [simpl; congruence | reflexivity]).
Qed.


(** What [buildRequest] hands back without a request is the task with one
    error recorded. *)
Lemma buildRequest_early h entries t t' evs :
  buildRequest E h entries t = (inl t', evs) ->
  exists err code, t' = SetError t err code
    /\ (code = ResultMissingInput \/ code = ResultInternalServerError).
Proof.
  unfold buildRequest.
  destruct (requestBody E (conf h) t) as [t1 | [reader length]] eqn:Hb.
  - intros [= <- <-]. unfold requestBody in Hb.
    destruct (negb _); [|discriminate].
    destruct (asReader _).
    + destruct (asString _); [|discriminate].
      destruct (GoLib.ParseInt _) as [n err].
      destruct (_ && _); discriminate.
    + injection Hb as <-. eexists _, _. split; [reflexivity | left; reflexivity].
  - destruct (http_NewRequest E _ _ _); [discriminate|].
    intros [= <- <-]. eexists _, _. split; [reflexivity | right; reflexivity].
Qed.


(** The loop over the header patterns leaves the rest of the request alone. *)
Lemma setHeaders_Header t entries : forall req1 req2,
  Header req1 = Header req2 ->
  Header (setHeaders E t entries req1) = Header (setHeaders E t entries req2).
Proof.
  unfold setHeaders.
  induction entries as [|nv rest IH]; intros req1 req2 H; simpl; [exact H|].
  apply IH. simpl. rewrite H. reflexivity.
Qed.

(** The headers of the request that [buildRequest] returns. *)
Lemma buildRequest_Header h entries t req evs :
  buildRequest E h entries t = (inr req, evs) ->
  exists req0,
    Header req0 = ∅
    /\ Header req
       = <["User-Agent" := ["EaseGateway"]]> (Header (setHeaders E t entries req0)).
Proof.
  unfold buildRequest.
  destruct (requestBody E (conf h) t) as [t1 | [reader length]]; [discriminate|].
  unfold http_NewRequest.
  destruct (http_NewRequest_error E _ _); [discriminate|].
  intros [= <- <-]. eexists (mkRequest _ _ _ _ ∅). split; reflexivity.
Qed.

(** [buildRequest] sends nothing. *)
Lemma buildRequest_events h entries t x evs req :
  buildRequest E h entries t = (x, evs) -> ~ In (EvDo req) evs.
Proof.
  unfold buildRequest.
  destruct (requestBody E (conf h) t) as [t2 | [reader length]].
  - intros [= _ <-] [].
  - destruct (http_NewRequest E _ _ _); intros [= _ <-] [Hin | []]; discriminate.
Qed.

(** The events of a call that reaches [send]. *)
Lemma Run_events h entries out t req evs :
  buildRequest E h entries t = (inr req, evs) ->
  (Run E h entries out t).2 = evs ++ send_events out req.
Proof.
  intros Hb. rewrite (Run_dispatch _ _ _ _ _ _ Hb).
  destruct (send out t) as [t' [[resp|] [e|]]]; reflexivity.
Qed.

(** The one request [Run] sends is the one [buildRequest] returns. *)
Lemma Run_sent h entries out t req :
  In (EvDo req) (Run E h entries out t).2 ->
  exists evs, buildRequest E h entries t = (inr req, evs).
Proof.
  destruct (buildRequest E h entries t) as [[t1 | req1] evs] eqn:Hb.
  - unfold Run. rewrite Hb. simpl. intros Hin.
    exfalso. exact (buildRequest_events _ _ _ _ _ _ Hb Hin).
  - rewrite (Run_events _ _ _ _ _ _ Hb). intros Hin.
    apply in_app_or in Hin. exists evs. destruct Hin as [Hin | Hin].
    + exfalso. exact (buildRequest_events _ _ _ _ _ _ Hb Hin).
    + destruct out; simpl in Hin.
      * destruct Hin as [[= ->] | []]. reflexivity.
      * destruct Hin as [[= ->] | []]. reflexivity.
      * destruct Hin as [[= ->] | [Hin | []]]; [reflexivity | discriminate].
Qed.

(** One more round of the loop over the header patterns. *)
Lemma setHeaders_cons t nv entries req :
  setHeaders E t (nv :: entries) req
  = setHeaders E t entries
      (Header_Set req (ReplaceTokensInPattern E t nv.1).1
                      (ReplaceTokensInPattern E t nv.2).1).
Proof. reflexivity. Qed.

Lemma setHeaders_app t entries1 entries2 req :
  setHeaders E t (entries1 ++ entries2) req
  = setHeaders E t entries2 (setHeaders E t entries1 req).
Proof. unfold setHeaders. apply fold_left_app. Qed.

(** The loop leaves alone every name that no pattern has as its key. *)
Lemma setHeaders_other t name entries : forall req,
  Forall (fun nv => headerKey E t nv <> name) entries ->
  Header (setHeaders E t entries req) !! name = Header req !! name.
Proof.
  induction entries as [|nv rest IH]; intros req Hall; [reflexivity|].
  inversion Hall as [|? ? Hnv Hrest]; subst.
  rewrite setHeaders_cons, (IH _ Hrest).
  unfold Header_Set; simpl. apply lookup_insert_ne. exact Hnv.
Qed.

(** After the loop, the key of a pattern holds the expanded value of the last
    pattern with that key, and nothing else. *)
Lemma setHeaders_last t before nv after req :
  Forall (fun nv' => headerKey E t nv' <> headerKey E t nv) after ->
  Header (setHeaders E t (before ++ nv :: after) req) !! headerKey E t nv
  = Some [(ReplaceTokensInPattern E t nv.2).1].
Proof.
  intros Hafter.
  rewrite setHeaders_app, setHeaders_cons, (setHeaders_other _ _ _ _ Hafter).
  unfold Header_Set, headerKey; simpl. apply lookup_insert_eq.
Qed.

(** C9. Every request that [Run] sends carries the User-Agent header
    "EaseGateway", and nothing else under that name, whatever the header
    patterns expand to. It is set in addition to the expanded pairs: under
    the canonical form of the expanded name of a pattern, when that is not
    User-Agent, the request carries the expanded value of that pattern, and
    nothing else (of the last such pattern in the order of the iteration,
    when several patterns expand to one name); under a name that is neither
    User-Agent nor the name of a pattern it carries nothing. *)
Theorem Run_user_agent h entries out t req :
  In (EvDo req) (Run E h entries out t).2 ->
  Header req !! "User-Agent" = Some ["EaseGateway"]
  /\ Header_Get req "User-Agent" = "EaseGateway"
  /\ (forall before name value after,
        entries = before ++ (name, value) :: after ->
        GoLib.CanonicalMIMEHeaderKey (ReplaceTokensInPattern E t name).1
          <> "User-Agent" ->
        Forall (fun nv => headerKey E t nv <> headerKey E t (name, value)) after ->
        Header req !! GoLib.CanonicalMIMEHeaderKey (ReplaceTokensInPattern E t name).1
          = Some [(ReplaceTokensInPattern E t value).1]
        /\ Header_Get req (ReplaceTokensInPattern E t name).1
           = (ReplaceTokensInPattern E t value).1)
  /\ (forall name, name <> "User-Agent" ->
        Forall (fun nv => headerKey E t nv <> name) entries ->
        Header req !! name = None).
Proof.
  intros Hin. destruct (Run_sent _ _ _ _ _ Hin) as [evs Hb].
  destruct (buildRequest_Header _ _ _ _ _ Hb) as (req0 & H0 & Hh).
  assert (Hua : Header req !! "User-Agent" = Some ["EaseGateway"])
    by (rewrite Hh; apply lookup_insert_eq).
  split; [exact Hua|]. split; [|split].
  - unfold Header_Get.
    change (GoLib.CanonicalMIMEHeaderKey "User-Agent") with "User-Agent".
    rewrite Hua. reflexivity.
  - intros before name value after -> Hne Hafter.
    assert (Hset : Header req
                     !! GoLib.CanonicalMIMEHeaderKey (ReplaceTokensInPattern E t name).1
                   = Some [(ReplaceTokensInPattern E t value).1]).
    { rewrite Hh, lookup_insert_ne by congruence.
      exact (setHeaders_last t before (name, value) after req0 Hafter). }
    split; [exact Hset|].
    unfold Header_Get. rewrite Hset. reflexivity.
  - intros name Hne Hall.
    rewrite Hh, lookup_insert_ne by congruence.
    rewrite (setHeaders_other _ _ _ _ Hall), H0. apply lookup_empty.
Qed.

(** The events of the callbacks of a list, run in order. *)
Lemma runCallbacks_events (cbs : list (string * TaskFinished)) : forall st,
  (fold_left (fun st ncb => runCallback ncb.2 st) cbs st).2
  = st.2 ++ flat_map (fun ncb => (runCallback ncb.2 (st.1, [])).2) cbs.
Proof.
  induction cbs as [|[name cb] rest IH]; intros st; simpl.
  - rewrite app_nil_r. reflexivity.
  - rewrite IH. destruct cb; simpl.
    + rewrite <- app_assoc. simpl. f_equal. f_equal.
      apply flat_map_ext. intros [n' [n'' b'|i]]; reflexivity.
    + reflexivity.
Qed.

Lemma closes_app b evs1 evs2 :
  closes b (evs1 ++ evs2) = closes b evs1 + closes b evs2.
Proof. unfold closes. rewrite List.filter_app, length_app. reflexivity. Qed.

(** Callbacks that do not close [b] close it zero times. *)
Lemma closes_others b t0 (cbs : list (string * TaskFinished)) :
  Forall (fun ncb => closesBody b ncb.2 = false) cbs ->
  closes b (flat_map (fun ncb => (runCallback ncb.2 (t0, [])).2) cbs) = 0.
Proof.
  induction 1 as [|[name cb] rest Hcb _ IH]; [reflexivity|].
  simpl. rewrite closes_app, IH.
  destruct cb as [n' b'|i]; simpl in *; [|reflexivity].
  unfold closes. simpl. rewrite Hcb. reflexivity.
Qed.

(** [buildRequest] closes nothing. *)
Lemma buildRequest_closes h entries t x evs b :
  buildRequest E h entries t = (x, evs) -> closes b evs = 0.
Proof.
  unfold buildRequest.
  destruct (requestBody E (conf h) t) as [t2 | [reader length]].
  - intros [= _ <-]. reflexivity.
  - destruct (http_NewRequest E _ _ _); intros [= _ <-]; reflexivity.
Qed.

(** C2, as the code has it. On the path on which [Run] receives a response and
    records no error, [Run] itself does not close the body. With [Close] set
    it registers, under the plugin's callback name, one callback that closes
    the body and removes itself, so that the end of the task closes the body
    once when no callback registered before does; without [Close] it
    registers nothing and the end of the task closes the body as often as it
    would have before. *)
Theorem Run_close_callback h entries t req evs resp t' evs' :
  buildRequest E h entries t = (inr req, evs) ->
  Run E h entries (GotResponse resp) t = (Return t' None, evs') ->
  task_errors t' = task_errors t ->
  closes (Resp_Body resp) evs' = 0
  /\ if Close (conf h)
     then task_callbacks t'
          = filter (fun p => p.1 ≠ closeCallbackName E h) (task_callbacks t)
            ++ [(closeCallbackName E h,
                 closeHTTPOutputResponseBody (closeCallbackName E h) (Resp_Body resp))]
          /\ runCallback
               (closeHTTPOutputResponseBody (closeCallbackName E h) (Resp_Body resp))
               (t', [])
             = (DeleteFinishedCallback t' (closeCallbackName E h),
                [EvClose (Resp_Body resp)])
          /\ (Forall (fun ncb => closesBody (Resp_Body resp) ncb.2 = false)
                 (task_callbacks t) ->
              closes (Resp_Body resp) (Finish t').2 = 1)
     else task_callbacks t' = task_callbacks t
          /\ closes (Resp_Body resp) (Finish t').2
             = closes (Resp_Body resp) (Finish t).2.
Proof.
  intros Hb. rewrite (Run_dispatch _ _ _ _ _ _ Hb). simpl.
  intros Hrun Herrs.
  assert (Hev : closes (Resp_Body resp) evs' = 0).
  { injection Hrun as _ <-.
    rewrite closes_app, (buildRequest_closes _ _ _ _ _ _ Hb). reflexivity. }
  split; [exact Hev|].
  injection Hrun as Hmap _. unfold mapResponse in Hmap.
  destruct (expectedResponseCode (conf h)) as [re|]; [|discriminate].
  destruct (regexp_MatchString E _ _); simpl in Hmap.
  2: { injection Hmap as <-. simpl in Herrs.
       apply (f_equal (@length _)) in Herrs. simpl in Herrs. lia. }
  destruct (if negb (Nat.eqb (String.length (ResponseCodeKey (conf h))) 0)
            then WithValue E t (ResponseCodeKey (conf h)) (VInt (StatusCode resp))
            else (t, None)) as [t1 err1] eqn:H1.
  assert (F1 : task_errors t1 = task_errors t /\ task_callbacks t1 = task_callbacks t).
  { apply publish_frame in H1. exact H1. }
  destruct err1 as [e1|].
  { injection Hmap as <-. simpl in Herrs. destruct F1 as [F1 _]. rewrite F1 in Herrs.
    apply (f_equal (@length _)) in Herrs. simpl in Herrs. lia. }
  destruct (if negb (Nat.eqb (String.length (ResponseBodyIOKey (conf h))) 0)
            then WithValue E t1 (ResponseBodyIOKey (conf h))
                   (VReadCloser (Resp_Body resp))
            else (t1, None)) as [t2 err2] eqn:H2.
  assert (F2 : task_errors t2 = task_errors t1 /\ task_callbacks t2 = task_callbacks t1).
  { apply publish_frame in H2. exact H2. }
  destruct err2 as [e2|].
  { injection Hmap as <-. simpl in Herrs.
    destruct F1 as [F1 _], F2 as [F2 _]. rewrite F2, F1 in Herrs.
    apply (f_equal (@length _)) in Herrs. simpl in Herrs. lia. }
  destruct F1 as [_ F1], F2 as [_ F2].
  destruct (Close (conf h)); injection Hmap as <-.
  - simpl. rewrite F2, F1. split; [reflexivity|]. split; [reflexivity|].
    intros Hold. unfold Finish. rewrite runCallbacks_events. simpl.
    rewrite F2, F1, flat_map_app, closes_app. simpl.
    rewrite closes_others.
    + unfold closes. simpl. rewrite Nat.eqb_refl. reflexivity.
    + apply List.Forall_forall. intros ncb Hin.
      apply (proj2 (list_elem_of_In _ _)) in Hin.
      apply list_elem_of_filter in Hin as [_ Hin].
      rewrite List.Forall_forall in Hold. apply Hold.
      apply (proj1 (list_elem_of_In _ _)). exact Hin.
  - split; [congruence|].
    unfold Finish. rewrite !runCallbacks_events. simpl. rewrite F2, F1.
    f_equal. apply flat_map_ext. intros [n' [n'' b'|i]]; reflexivity.
Qed.

End RunFacts.

(** ** [Run] on the example inputs *)

Module RunExamples.

Import Examples.

(** Status 500 against the pattern "2..". *)
Lemma Run_code_mismatch_witness :
  exists t' err,
    Run Reference.env output [] (GotResponse resp500) task0
    = (Return t' None,
       [EvNewRequest "GET" "http://example.com/a?x=1"]
       ++ [EvDo (mkRequest "GET" "http://example.com/a?x=1" (NewBuffer "") 0
                   (<["User-Agent" := ["EaseGateway"]]> ∅))])
    /\ Error_of t' = Some (err, ResultInternalServerError)
    /\ task_values t' = task_values task0
    /\ task_callbacks t' = task_callbacks task0.
Proof.
  apply (Run_code_mismatch Reference.env output [] task0 _ _ resp500 (mkRegexp "2..")).
  - vm_compute. reflexivity.
  - vm_compute. reflexivity.
  - vm_compute. reflexivity.
Defined.

Example Run_resp500 :
  (Run Reference.env output [] (GotResponse resp500) task0).1
  = Return (mkTask ∅
              [("response code: 500 doesn't match with expected : 2..",
                ResultInternalServerError)] [] None) None.
Proof. vm_compute. reflexivity. Qed.

(** A field that holds text where a stream is expected. *)
Lemma Run_missing_input_witness :
  exists err,
    Run Reference.env streamOutput [] (GotResponse resp200) textTask
    = (Return (SetError textTask err ResultMissingInput) None, [])
    /\ Error_of (SetError textTask err ResultMissingInput)
       = Some (err, ResultMissingInput).
Proof.
  apply (Run_missing_input Reference.env streamOutput [] (GotResponse resp200) textTask).
  - vm_compute. discriminate.
  - right. exists (VString "text"). split; vm_compute; reflexivity.
Defined.


Example Run_cancelled :
  (Run Reference.env output [] GotCancel cancelledTask).1
  = Return (mkTask ∅ [("task is cancelled by client gone", ResultTaskCancelled)] []
              (Some "client gone")) None.
Proof. vm_compute. reflexivity. Qed.

(** Without validation there is no compiled pattern, and [Run] panics on the
    first response. *)
Example Run_unvalidated_panics :
  (Run Reference.env unvalidatedOutput [] (GotResponse resp200) task0).1
  = Panic "nil *regexp.Regexp".
Proof. vm_compute. reflexivity. Qed.

(** A header pattern named "user-agent" does not replace the fixed value;
    the pattern "x-trace" is set with its placeholder expanded, under its
    canonical name; no other header is set. *)
Lemma Run_user_agent_witness :
  In (EvDo agentRequest)
     (Run Reference.env agentOutput agentEntries (GotResponse resp200) idTask).2
  /\ Header agentRequest !! "User-Agent" = Some ["EaseGateway"]
  /\ Header_Get agentRequest "User-Agent" = "EaseGateway"
  /\ Header agentRequest !! "X-Trace" = Some ["r-17"]
  /\ Header_Get agentRequest "x-trace" = "r-17"
  /\ Header agentRequest !! "Via" = None.
Proof.
  assert (Hin : In (EvDo agentRequest)
                  (Run Reference.env agentOutput agentEntries
                     (GotResponse resp200) idTask).2)
    by (vm_compute; right; left; reflexivity).
  destruct (Run_user_agent Reference.env agentOutput agentEntries
              (GotResponse resp200) idTask agentRequest Hin)
    as (Hua & Hget & Hpat & Hnone).
  split; [exact Hin|]. split; [exact Hua|]. split; [exact Hget|].
  assert (Htrace :
    Header agentRequest
      !! GoLib.CanonicalMIMEHeaderKey
           (ReplaceTokensInPattern Reference.env idTask "x-trace").1
    = Some [(ReplaceTokensInPattern Reference.env idTask "[id]").1]
    /\ Header_Get agentRequest (ReplaceTokensInPattern Reference.env idTask "x-trace").1
       = (ReplaceTokensInPattern Reference.env idTask "[id]").1).
  { apply (Hpat [("user-agent", "curl/8")] "x-trace" "[id]" [("accept", "text/plain")]).
    - reflexivity.
    - vm_compute. discriminate.
    - repeat constructor; vm_compute; discriminate. }
  split; [exact (proj1 Htrace)|]. split; [exact (proj2 Htrace)|].
  apply Hnone; [discriminate|].
  repeat constructor; vm_compute; discriminate.
Defined.

(** C2 fails as stated: with [Close] unset and no field to publish the body
    under, a successful dispatch leaves the body with no one to close it. *)
Lemma Run_leaves_body_open :
  Close (conf noCloseOutput) = false
  /\ ResponseBodyIOKey (conf noCloseOutput) = ""
  /\ exists t' evs,
       Run Reference.env noCloseOutput [] (GotResponse resp200) task0
       = (Return t' None, evs)
       /\ Error_of t' = None
       /\ task_callbacks t' = []
       /\ task_values t' = ∅
       /\ closes (Resp_Body resp200) evs = 0
       /\ closes (Resp_Body resp200) (Finish t').2 = 0.
Proof.
  split; [vm_compute; reflexivity|]. split; [vm_compute; reflexivity|].
  eexists _, _. split; [vm_compute; reflexivity|].
  repeat split.
Qed.

(** With [Close] set, a response whose code does not match is dropped with no
    close callback registered. *)
Example Run_mismatch_registers_nothing :
  Close (conf output) = true
  /\ (Run Reference.env output [] (GotResponse resp500) task0).1
     = Return (mkTask ∅
                 [("response code: 500 doesn't match with expected : 2..",
                   ResultInternalServerError)] [] None) None.
Proof. split; vm_compute; reflexivity. Qed.

(** A response that matches, published and registered for closing. *)
Lemma Run_close_callback_witness :
  closes (Resp_Body resp200)
    [EvNewRequest "GET" "http://example.com/"; EvDo publishRequest] = 0
  /\ task_callbacks publishedTask
     = [("out-closeHTTPOutputResponseBody",
         closeHTTPOutputResponseBody "out-closeHTTPOutputResponseBody" (mkBody 1))]
  /\ closes (Resp_Body resp200) (Finish publishedTask).2 = 1.
Proof.
  assert (Hb : buildRequest Reference.env publishOutput [] task0
               = (inr publishRequest, [EvNewRequest "GET" "http://example.com/"]))
    by (vm_compute; reflexivity).
  assert (Hr : Run Reference.env publishOutput [] (GotResponse resp200) task0
               = (Return publishedTask None,
                  [EvNewRequest "GET" "http://example.com/"; EvDo publishRequest]))
    by (vm_compute; reflexivity).
  assert (He : task_errors publishedTask = task_errors task0) by reflexivity.
  destruct (Run_close_callback Reference.env publishOutput [] task0 publishRequest
              _ resp200 publishedTask _ Hb Hr He) as [H0 H1].
  split; [exact H0|].
  change (Close (conf publishOutput)) with true in H1.
  destruct H1 as (Hcb & _ & H1).
  split; [reflexivity|]. apply H1. constructor.
Defined.

End RunExamples.

(** ** Properties of the protocol of [send] *)

Module SendProtocolFacts.

Import SendProtocol.

Lemma Inv_init t : Inv t (init t).
Proof. repeat split; discriminate. Qed.

(** Every step keeps the invariant. *)
Lemma Inv_step t0 l s s' : Inv t0 s -> step l s = Some s' -> Inv t0 s'.
Proof.
  intros [Hw Hc] Hs. destruct s as [m w ec rc cc tk]. simpl in *.
  destruct l; simpl in Hs.
  - (* DoReturns *)
    destruct w; try discriminate. injection Hs as <-.
    split; [destruct d; discriminate|]. simpl.
    destruct m; simpl in *; try exact Hc.
    + destruct Hc as (He & Hec & Hrc & _). repeat split; try assumption.
      destruct d; discriminate.
    + inversion Hc; subst; econstructor; eassumption.
    + inversion Hc; subst; econstructor; eassumption.
    + inversion Hc; subst; econstructor; eassumption.
  - (* RecvResponse *)
    destruct m; try discriminate. destruct w; try discriminate.
    destruct rc; try discriminate. injection Hs as <-.
    split; [discriminate|]. simpl in *.
    destruct Hc as (He & _ & _ & Hn).
    destruct resp as [resp|]; [|congruence].
    apply OutResponse. exact He.
  - (* RecvError *)
    destruct m; try discriminate. destruct w; try discriminate.
    destruct ec; try discriminate. injection Hs as <-.
    split; [discriminate|]. simpl in *.
    destruct Hc as (He & _). apply OutError. simpl. rewrite He. reflexivity.
  - (* Cancelled *)
    destruct m; try discriminate.
    destruct (task_cancelled tk) as [cause|] eqn:Hcause; try discriminate.
    injection Hs as <-. split; [exact Hw|]. simpl in *.
    destruct Hc as (He & _). unfold CancelCause. rewrite Hcause. simpl.
    apply OutCancelled; simpl; [exact Hcause | reflexivity | rewrite He; reflexivity].
  - (* TaskCancel *)
    destruct (task_cancelled tk) eqn:Hcause; try discriminate.
    injection Hs as <-. split; [exact Hw|]. simpl in *.
    destruct m; simpl in *; try exact Hc.
    + inversion Hc; subst; simpl in *; [apply OutResponse | apply OutError |];
        try assumption. congruence.
    + inversion Hc; subst; simpl in *; [apply OutResponse | apply OutError |];
        try assumption. congruence.
    + inversion Hc; subst; simpl in *; [apply OutResponse | apply OutError |];
        try assumption. congruence.
  - (* CloseE *)
    destruct m; try discriminate. injection Hs as <-.
    split; [exact Hw|]. simpl in *.
    inversion Hc; subst; econstructor; eassumption.
  - (* CloseR *)
    destruct m; try discriminate. injection Hs as <-.
    split; [exact Hw|]. simpl in *.
    inversion Hc; subst; econstructor; eassumption.
  - (* SendPanics *)
    destruct w; try discriminate.
    + destruct ec; try discriminate. injection Hs as <-.
      split; [discriminate|]. simpl in *.
      destruct m; simpl in *;
        [destruct Hc as (_ & ? & _); discriminate | | |];
        inversion Hc; subst; econstructor; eassumption.
    + destruct rc; try discriminate. injection Hs as <-.
      split; [discriminate|]. simpl in *.
      destruct m; simpl in *;
        [destruct Hc as (_ & _ & ? & _); discriminate | | |];
        inversion Hc; subst; econstructor; eassumption.
  - (* Unwind *)
    destruct w; try discriminate. injection Hs as <-.
    split; [discriminate|]. simpl in *.
    destruct m; simpl in *.
    + destruct Hc as (He & Hec & Hrc & _). repeat split; try assumption. discriminate.
    + inversion Hc; subst; econstructor; eassumption.
    + inversion Hc; subst; econstructor; eassumption.
    + inversion Hc; subst; econstructor; eassumption.
Qed.

Lemma Inv_run t0 ls : forall s s', Inv t0 s -> run ls s = Some s' -> Inv t0 s'.
Proof.
  induction ls as [|l ls IH]; intros s s' Hi Hr; simpl in Hr.
  - injection Hr as <-. exact Hi.
  - destruct (step l s) as [s1|] eqn:Hs; [|discriminate].
    eapply IH; [eapply Inv_step; eassumption | exact Hr].
Qed.















(** Whatever the outcome, the task carries at most one more error than
    before the call, and it is the error that is returned. *)
Lemma Outcome_one_write t0 s res :
  Outcome t0 s res ->
  (res.2 = None /\ task_errors (task s) = task_errors t0)
  \/ exists err code,
       res = (None, Some err)
       /\ task_errors (task s) = (err, code) :: task_errors t0
       /\ (code = ResultServiceUnavailable \/ code = ResultTaskCancelled).
Proof.
  intros H. inversion H; subst.
  - left. split; [reflexivity | assumption].
  - right. eexists _, _. split; [reflexivity|]. split; [eassumption | tauto].
  - right. eexists _, _. split; [reflexivity|]. split; [eassumption | tauto].
Qed.


(** The deferred calls have closed [e] before [r], and both before [send]
    returns. *)
Lemma closing_step l s s' :
  closing s = true -> step l s = Some s' -> closing s' = true.
Proof.
  intros Hc Hs. destruct s as [m w ec rc cc tk]. unfold closing in *.
  destruct l; simpl in *;
    destruct m, w; simpl in *; try discriminate;
    try (destruct (task_cancelled tk); try discriminate);
    try (destruct ec; try discriminate);
    try (destruct rc; try discriminate);
    injection Hs as <-; simpl; try reflexivity; try assumption.
Qed.

Lemma closing_run ls : forall s s',
  closing s = true -> run ls s = Some s' -> closing s' = true.
Proof.
  induction ls as [|l ls IH]; intros s s' Hc Hr; simpl in Hr.
  - injection Hr as <-. exact Hc.
  - destruct (step l s) as [s1|] eqn:Hs; [|discriminate].
    eapply IH; [eapply closing_step; eassumption | exact Hr].
Qed.

(** After [send] has returned, a worker that is past [Do] comes to its end:
    its late send finds the channel closed, panics, and the panic is
    swallowed. *)
Lemma late_worker_finishes t ls s res :
  run ls (init t) = Some s -> main s = MReturned res -> worker s <> WDo ->
  exists ls' s', run ls' s = Some s' /\ worker s' = WDone.
Proof.
  intros Hr Hm Hw.
  pose proof (Inv_run _ _ _ _ (Inv_init t) Hr) as [Hcr _].
  pose proof (closing_run ls (init t) s eq_refl Hr) as Hcl.
  destruct s as [m w ec rc cc tk]. unfold closing in Hcl. simpl in *. subst m.
  apply andb_true_iff in Hcl as [-> ->].
  destruct w; try congruence.
  - exists [SendPanics; Unwind]. eexists. split; reflexivity.
  - exists [SendPanics; Unwind]. eexists. split; reflexivity.
  - exists [Unwind]. eexists. split; reflexivity.
  - exists []. eexists. split; reflexivity.
Qed.

(** Each case of the function [send] is an outcome of the protocol: there
    is a schedule on which [send] returns what the function says, with the
    task as the function leaves it. *)
Lemma send_complete t out :
  (out = GotCancel -> is_Some (task_cancelled t)) ->
  exists ls s,
    run ls (init t) = Some s
    /\ main s = MReturned (send out t).2
    /\ task s = (send out t).1.
Proof.
  intros Hcancel. destruct out as [resp | err |].
  - exists [DoReturns (DoResponse resp); RecvResponse; CloseE; CloseR].
    eexists. repeat split.
  - exists [DoReturns (DoError err None); RecvError; CloseE; CloseR].
    eexists. repeat split.
  - destruct (Hcancel eq_refl) as [cause Hc].
    exists [Cancelled; CloseE; CloseR]. eexists.
    split; [simpl; rewrite Hc; reflexivity|]. split; reflexivity.
Qed.


(** Without the deferred [recover] the same schedule would end in a crash:
    the last step is where the panic of the late send is caught. *)
Example late_send_panics :
  exists s, run (removelast Examples.lateSchedule) (init Examples.task0) = Some s
            /\ worker s = WPanic.
Proof. eexists. split; vm_compute; reflexivity. Qed.

End SendProtocolFacts.

(** ** More on [Prepare] and the constructor *)

(** The conjuncts of [acceptable], each from a fact at hand. *)
Ltac accept_all :=
  repeat split;
  first [ assumption | reflexivity | discriminate
        | intros _; eauto; fail | intros; congruence ].

Section PrepareCoverage.

Context {CommonConfig : Type} (E : @Externals CommonConfig).

Implicit Types (c : @httpOutputConfig CommonConfig) (names : list string)
  (entries : list (string * string)).

(** The loop over the header patterns passes exactly when every entry of the
    map does. *)
Lemma checkHeaders_map (m : gmap string string) entries :
  rangeOrder m entries ->
  checkHeaders E entries = None <->
  (forall name value, m !! name = Some value -> checkHeader E name value = None).
Proof.
  unfold rangeOrder. intros Hp. rewrite checkHeaders_None, List.Forall_forall. split.
  - intros H name value Hl.
    apply (H (name, value)), list_elem_of_In. rewrite Hp.
    apply elem_of_map_to_list. exact Hl.
  - intros H [name value] Hin. simpl. apply H.
    apply elem_of_map_to_list. rewrite <- Hp. apply list_elem_of_In. exact Hin.
Qed.

Lemma length_zero_iff (s : string) : Nat.eqb (String.length s) 0 = true <-> s = "".
Proof. destruct s; simpl; split; congruence. Qed.

(** [Prepare] accepts a configuration exactly when the common part is
    accepted and lines 75-135 find nothing wrong, whatever the order in which
    the header patterns are visited. *)
Theorem Prepare_succeeds_iff c names entries :
  rangeOrder (HeaderPatterns c) entries ->
  (Prepare E c names entries).2 = None <->
  (CommonConfig_Prepare E (Common c) names).2 = None /\ acceptable E c.
Proof.
  intros Hp. pose proof (checkHeaders_map _ _ Hp) as Hh.
  unfold Prepare, acceptable, keyPairGiven. simpl.
  destruct (CommonConfig_Prepare E (Common c) names) as [cc [e|]]; simpl.
  { split; [discriminate | intros [H _]; discriminate]. }
  destruct (invalidURL E _) eqn:Hu.
  { split; [discriminate | intros (_ & H & _); discriminate]. }
  destruct (ScanTokens E (GoStrings.TrimSpace (URLPattern c)) false) eqn:Hs.
  { split; [discriminate | intros (_ & _ & H & _); discriminate]. }
  destruct (checkHeaders E entries) eqn:Hc.
  { split; [discriminate|]. intros (_ & _ & _ & H & _).
    apply Hh in H. discriminate. }
  destruct (bool_decide _) eqn:Hm; simpl.
  2: { split; [discriminate|]. intros (_ & _ & _ & _ & H & _).
       apply bool_decide_eq_false_1 in Hm. contradiction. }
  apply bool_decide_eq_true_1 in Hm.
  destruct (regexp_Compile E _) eqn:Hre.
  { split; [discriminate | intros (_ & _ & _ & _ & _ & H & _); discriminate]. }
  simpl.
  destruct (ScanTokens E (RequestBodyBufferPattern c) false) eqn:Hb.
  { split; [discriminate | intros (_ & _ & _ & _ & _ & _ & H & _); discriminate]. }
  simpl.
  assert (Hhdr : forall name value, HeaderPatterns c !! name = Some value ->
                   checkHeader E name value = None) by (apply Hh; reflexivity).
  destruct (_ && _) eqn:Hg.
  - destruct (tls_LoadX509KeyPair E _ _) as [crt|e] eqn:Hl.
    + simpl.
      destruct (Nat.eqb (String.length (GoStrings.TrimSpace (CAFile c))) 0) eqn:Hca;
        simpl.
      * apply length_zero_iff in Hca. split; [|reflexivity]. intros _.
        accept_all.
      * destruct (ioutil_ReadFile E _) as [data [e|]]; simpl.
        -- split; [discriminate|]. intros (_ & _ & _ & _ & _ & _ & _ & _ & H).
           assert (Hne : GoStrings.TrimSpace (CAFile c) <> "")
             by (intros Heq; apply length_zero_iff in Heq; congruence).
           specialize (H Hne). discriminate.
        -- split; [|reflexivity]. intros _. accept_all.
    + split; [discriminate|]. intros (_ & _ & _ & _ & _ & _ & _ & H & _).
      destruct (H eq_refl) as [crt Hcrt]. discriminate.
  - simpl.
    destruct (Nat.eqb (String.length (GoStrings.TrimSpace (CAFile c))) 0) eqn:Hca;
      simpl.
    + apply length_zero_iff in Hca. split; [|reflexivity]. intros _.
      accept_all.
    + destruct (ioutil_ReadFile E _) as [data [e|]]; simpl.
      * split; [discriminate|]. intros (_ & _ & _ & _ & _ & _ & _ & _ & H).
        assert (Hne : GoStrings.TrimSpace (CAFile c) <> "")
          by (intros Heq; apply length_zero_iff in Heq; congruence).
        specialize (H Hne). discriminate.
      * split; [|reflexivity]. intros _.
        accept_all.
Qed.

(** Whatever the outcome, [Prepare] leaves the header patterns, the body
    buffer pattern, [Close], the timeout and [Insecure] as they were. Once the
    common part is accepted the nine other string fields hold their trimmed
    values, also when a later check fails; when the common part is refused
    nothing is trimmed. *)
Theorem Prepare_fields c names entries :
  plainFields (Prepare E c names entries).1 = plainFields c
  /\ stringFields (Prepare E c names entries).1
     = match (CommonConfig_Prepare E (Common c) names).2 with
       | None => map GoStrings.TrimSpace (stringFields c)
       | Some _ => stringFields c
       end.
Proof.
  unfold Prepare. simpl.
  destruct (CommonConfig_Prepare E (Common c) names) as [cc [e|]]; simpl;
    [split; reflexivity|].
  destruct (invalidURL E _); [split; reflexivity|].
  destruct (ScanTokens E (GoStrings.TrimSpace (URLPattern c)) false);
    [split; reflexivity|].
  destruct (checkHeaders E entries); [split; reflexivity|].
  destruct (bool_decide _); simpl; [|split; reflexivity].
  destruct (regexp_Compile E _); [split; reflexivity|]. simpl.
  destruct (ScanTokens E (RequestBodyBufferPattern c) false);
    [split; reflexivity|]. simpl.
  destruct (_ && _).
  - destruct (tls_LoadX509KeyPair E _ _) as [crt|e]; [|split; reflexivity]. simpl.
    destruct (Nat.eqb (String.length (GoStrings.TrimSpace (CAFile c))) 0); simpl;
      [split; reflexivity|].
    destruct (ioutil_ReadFile E _) as [data [e|]]; split; reflexivity.
  - simpl.
    destruct (Nat.eqb (String.length (GoStrings.TrimSpace (CAFile c))) 0); simpl;
      [split; reflexivity|].
    destruct (ioutil_ReadFile E _) as [data [e|]]; split; reflexivity.
Qed.

(** After a successful [Prepare]: without a CA file the CA data of the
    configuration is what it was; with one it is what the file read gave. In
    both cases it is what the constructor hands to the client as its root
    certificates (nil: the system's). *)
Theorem Prepare_ca_certificate c names entries c' :
  Prepare E c names entries = (c', None) ->
  (GoStrings.TrimSpace (CAFile c) = "" -> caCert c' = caCert c)
  /\ (GoStrings.TrimSpace (CAFile c) <> "" ->
      ioutil_ReadFile E (GoStrings.TrimSpace (CAFile c)) = (caCert c', None))
  /\ RootCAs (TLSClientConfig (client (HTTPOutputConstructor c'))) = caCert c'.
Proof.
  intros Hp.
  assert (Hroot : RootCAs (TLSClientConfig (client (HTTPOutputConstructor c')))
                  = caCert c').
  { unfold HTTPOutputConstructor. simpl.
    destruct (caCert c'); [reflexivity|]. destruct (cert c'); reflexivity. }
  revert Hp. unfold Prepare. simpl.
  destruct (CommonConfig_Prepare E (Common c) names) as [cc [e|]]; simpl;
    [discriminate|].
  destruct (invalidURL E _); [discriminate|].
  destruct (ScanTokens E (GoStrings.TrimSpace (URLPattern c)) false);
    [discriminate|].
  destruct (checkHeaders E entries); [discriminate|].
  destruct (bool_decide _); simpl; [|discriminate].
  destruct (regexp_Compile E _); [discriminate|]. simpl.
  destruct (ScanTokens E (RequestBodyBufferPattern c) false);
    [discriminate|]. simpl.
  destruct (_ && _).
  - destruct (tls_LoadX509KeyPair E _ _) as [crt|e]; [|discriminate]. simpl.
    destruct (Nat.eqb (String.length (GoStrings.TrimSpace (CAFile c))) 0) eqn:Hca;
      simpl.
    + intros Hc. split; [|split; [|exact Hroot]].
      * intros _. apply (f_equal fst) in Hc. simpl in Hc. subst c'. reflexivity.
      * intros Hne. apply length_zero_iff in Hca. contradiction.
    + destruct (ioutil_ReadFile E _) as [data [e|]]; [discriminate|].
      intros Hc. split; [|split; [|exact Hroot]].
      * intros Heq. apply length_zero_iff in Heq. congruence.
      * intros _. apply (f_equal fst) in Hc. simpl in Hc. subst c'. reflexivity.
  - simpl.
    destruct (Nat.eqb (String.length (GoStrings.TrimSpace (CAFile c))) 0) eqn:Hca;
      simpl.
    + intros Hc. split; [|split; [|exact Hroot]].
      * intros _. apply (f_equal fst) in Hc. simpl in Hc. subst c'. reflexivity.
      * intros Hne. apply length_zero_iff in Hca. contradiction.
    + destruct (ioutil_ReadFile E _) as [data [e|]]; [discriminate|].
      intros Hc. split; [|split; [|exact Hroot]].
      * intros Heq. apply length_zero_iff in Heq. congruence.
      * intros _. apply (f_equal fst) in Hc. simpl in Hc. subst c'. reflexivity.
Qed.

(** The timeout of the client is the configured number of seconds in
    nanoseconds. For the values of a uint16 it fits a [time.Duration] (an
    int64) without wrapping, and it is zero, which means no timeout, exactly
    when the configured number is. *)
Theorem HTTPOutputConstructor_timeout c :
  (0 <= TimeoutSec c <= 65535)%Z ->
  (Timeout (client (HTTPOutputConstructor c)) = TimeoutSec c * 1000000000
   /\ 0 <= Timeout (client (HTTPOutputConstructor c)) < 2 ^ 63
   /\ (Timeout (client (HTTPOutputConstructor c)) = 0 <-> TimeoutSec c = 0))%Z.
Proof.
  intros H. unfold HTTPOutputConstructor. simpl.
  split; [reflexivity|]. split; [|lia].
  change (2 ^ 63)%Z with 9223372036854775808%Z. lia.
Qed.

End PrepareCoverage.

(** ** More on [Run] *)

Section RunCoverage.

Context {CommonConfig : Type} (E : @Externals CommonConfig).

Implicit Types (h : @httpOutput CommonConfig) (t : Task)
  (entries : list (string * string)) (out : SendOutcome).

(** The loop over the header patterns touches the headers only. *)
Lemma setHeaders_fields t entries : forall req,
  Req_Method (setHeaders E t entries req) = Req_Method req
  /\ Req_URL (setHeaders E t entries req) = Req_URL req
  /\ Req_Body (setHeaders E t entries req) = Req_Body req
  /\ ContentLength (setHeaders E t entries req) = ContentLength req.
Proof.
  unfold setHeaders.
  induction entries as [|nv rest IH]; intros req; simpl; [tauto|].
  destruct (IH (Header_Set req (ReplaceTokensInPattern E t nv.1).1
                  (ReplaceTokensInPattern E t nv.2).1)) as (H1 & H2 & H3 & H4).
  rewrite H1, H2, H3, H4. tauto.
Qed.

(** The request that [buildRequest] returns: the body and the length that
    lines 224-255 chose, the expanded URL, and the method. *)
Lemma buildRequest_inr h entries t req evs :
  buildRequest E h entries t = (inr req, evs) ->
  requestBody E (conf h) t = inr (Req_Body req, ContentLength req)
  /\ Req_URL req = (ReplaceTokensInPattern E t (URLPattern (conf h))).1
  /\ Req_Method req
     = (if String.eqb (Method (conf h)) "" then "GET" else Method (conf h))
  /\ http_NewRequest_error E (Method (conf h))
       (ReplaceTokensInPattern E t (URLPattern (conf h))).1 = None.
Proof.
  unfold buildRequest.
  destruct (requestBody E (conf h) t) as [t1 | [reader length]]; [discriminate|].
  unfold http_NewRequest.
  destruct (http_NewRequest_error E _ _); [discriminate|].
  intros [= <- _]. simpl.
  match goal with
  | |- context [setHeaders E t entries ?r] =>
      destruct (setHeaders_fields t entries r) as (H1 & H2 & H3 & H4)
  end.
  rewrite H1, H2, H3, H4. simpl. repeat split.
Qed.

(** Without a stream key the request carries the expanded body buffer
    pattern, and its content length is the length of that body in bytes. *)
Theorem Run_buffer_body h entries out t req :
  RequestBodyIOKey (conf h) = "" ->
  In (EvDo req) (Run E h entries out t).2 ->
  Req_Body req
  = NewBuffer (ReplaceTokensInPattern E t (RequestBodyBufferPattern (conf h))).1
  /\ ContentLength req
     = Z.of_nat (String.length
                   (ReplaceTokensInPattern E t (RequestBodyBufferPattern (conf h))).1)
  /\ Req_URL req = (ReplaceTokensInPattern E t (URLPattern (conf h))).1.
Proof.
  intros Hkey Hin. destruct (Run_sent _ _ _ _ _ _ Hin) as [evs Hb].
  destruct (buildRequest_inr _ _ _ _ _ Hb) as (Hrb & Hurl & _).
  unfold requestBody in Hrb. rewrite Hkey in Hrb. simpl in Hrb.
  injection Hrb as <- <-. repeat split. exact Hurl.
Qed.

Lemma parseUint_nonneg s : forall acc n,
  (0 <= acc)%Z -> GoLib.parseUint acc s = GoLib.ScanValue n -> (0 <= n)%Z.
Proof.
  induction s as [|ch s IH]; intros acc n Hacc; simpl.
  - intros [= <-]. exact Hacc.
  - destruct (negb (GoLib.isDigit ch)); [discriminate|].
    destruct (_ <=? acc)%Z; [discriminate|].
    destruct (_ <? _)%Z; [discriminate|]. apply IH. lia.
Qed.

(** [strconv.ParseInt] stays within int64, also when it reports an error. *)
Lemma ParseInt_range s :
  (- 2 ^ 63 <= (GoLib.ParseInt s).1 < 2 ^ 63)%Z.
Proof.
  assert (Hpow : (2 ^ 63 = 9223372036854775808)%Z) by reflexivity.
  unfold GoLib.ParseInt. destruct s as [|ch s]; [simpl; lia|].
  cbv zeta.
  match goal with
  | |- context [if ?b then s else String ch s] =>
      generalize (if b then s else String ch s)
  end.
  intros digits. destruct digits as [|d ds]; [simpl; lia|].
  rewrite Hpow in *.
  destruct (GoLib.parseUint 0 (String d ds)) as [un| |] eqn:Hp.
  - apply parseUint_nonneg in Hp; [|lia].
    destruct (Ascii.eqb ch "-"); cbn [negb andb].
    + destruct (9223372036854775808 <? un)%Z eqn:Hlt; cbn [fst]; [lia|].
      apply Z.ltb_ge in Hlt. lia.
    + destruct (9223372036854775808 <=? un)%Z eqn:Hle; cbn [fst]; [lia|].
      apply Z.leb_gt in Hle. lia.
  - cbn [fst]. lia.
  - destruct (Ascii.eqb ch "-"); cbn [fst]; lia.
Qed.

(** With a stream key the request carries the stream of that field. When the
    field HTTP_CONTENT_LENGTH holds a string, the content length is the value
    [strconv.ParseInt] gives for it, and the stream is limited to it when
    that value comes without an error and is not negative; with an error
    (whatever the value: 0 after a syntax error, a bound of int64 out of
    range) or with a negative value the stream is not limited. Without such a
    string the content length is 0 (unknown) and the stream is not limited.
    The content length is always an int64. *)
Theorem Run_stream_body h entries out t req :
  RequestBodyIOKey (conf h) <> "" ->
  In (EvDo req) (Run E h entries out t).2 ->
  exists input,
    asReader (Value_of t (RequestBodyIOKey (conf h))) = Some input
    /\ (Req_Body req = input
        \/ (Req_Body req = LimitReader input (ContentLength req)
            /\ 0 <= ContentLength req)%Z)
    /\ (asString (Value_of t "HTTP_CONTENT_LENGTH") = None ->
        Req_Body req = input /\ ContentLength req = 0%Z)
    /\ (forall clen, asString (Value_of t "HTTP_CONTENT_LENGTH") = Some clen ->
        ContentLength req = (GoLib.ParseInt clen).1
        /\ ((GoLib.ParseInt clen).2 = None -> (0 <= (GoLib.ParseInt clen).1)%Z ->
            Req_Body req = LimitReader input (GoLib.ParseInt clen).1)
        /\ ((GoLib.ParseInt clen).2 <> None -> Req_Body req = input)
        /\ (((GoLib.ParseInt clen).1 < 0)%Z -> Req_Body req = input))
    /\ (- 2 ^ 63 <= ContentLength req < 2 ^ 63)%Z.
Proof.
  intros Hkey Hin. destruct (Run_sent _ _ _ _ _ _ Hin) as [evs Hb].
  destruct (buildRequest_inr _ _ _ _ _ Hb) as (Hrb & _).
  unfold requestBody in Hrb. rewrite (length_nonempty _ Hkey) in Hrb. simpl in Hrb.
  destruct (asReader _) as [input|]; [|discriminate].
  exists input. split; [reflexivity|].
  destruct (asString _) as [clen|].
  - pose proof (ParseInt_range clen) as Hrange.
    destruct (GoLib.ParseInt clen) as [n err] eqn:Hpi. simpl in *.
    destruct (bool_decide (err = None)) eqn:Herr; simpl in Hrb.
    + apply bool_decide_eq_true_1 in Herr.
      destruct (0 <=? n)%Z eqn:Hn; injection Hrb as Hbody Hlen; rewrite <- Hlen.
      * apply Z.leb_le in Hn. split; [right; split; [congruence | exact Hn]|].
        split; [discriminate|]. split; [|exact Hrange].
        intros clen' [= <-]. rewrite Hpi. simpl. split; [reflexivity|].
        split; [congruence|]. split; [contradiction | lia].
      * apply Z.leb_gt in Hn. split; [left; congruence|].
        split; [discriminate|]. split; [|exact Hrange].
        intros clen' [= <-]. rewrite Hpi. simpl. split; [reflexivity|].
        split; [lia|]. split; congruence.
    + injection Hrb as Hbody Hlen; rewrite <- Hlen.
      apply bool_decide_eq_false_1 in Herr.
      split; [left; congruence|].
      split; [discriminate|]. split; [|exact Hrange].
      intros clen' [= <-]. rewrite Hpi. simpl. split; [reflexivity|].
      split; [contradiction|]. split; congruence.
  - injection Hrb as Hbody Hlen. rewrite <- Hlen.
    split; [left; congruence|]. split; [intros _; split; congruence|].
    split; [discriminate|].
    assert (Hpow : (2 ^ 63 = 9223372036854775808)%Z) by reflexivity.
    rewrite Hpow. lia.
Qed.

Lemma attempts_app evs1 evs2 :
  attempts (evs1 ++ evs2) = attempts evs1 + attempts evs2.
Proof. unfold attempts. rewrite List.filter_app, length_app. reflexivity. Qed.

(** One call of [Run] starts the HTTP call once when it has built the
    request, whatever comes of it, and not at all otherwise: there is no
    second attempt. *)
Theorem Run_single_attempt h entries out t :
  attempts (Run E h entries out t).2
  = match (buildRequest E h entries t).1 with
    | inr _ => 1
    | inl _ => 0
    end.
Proof.
  destruct (buildRequest E h entries t) as [[t1 | req] evs] eqn:Hb; simpl.
  - unfold Run. rewrite Hb. simpl. unfold buildRequest in Hb.
    destruct (requestBody E (conf h) t) as [t2 | [reader length]].
    + injection Hb as _ <-. reflexivity.
    + destruct (http_NewRequest E _ _ _); [discriminate|].
      injection Hb as _ <-. reflexivity.
  - rewrite (Run_events _ _ _ _ _ _ _ Hb), attempts_app.
    unfold buildRequest in Hb.
    destruct (requestBody E (conf h) t) as [t2 | [reader length]]; [discriminate|].
    destruct (http_NewRequest E _ _ _); [|discriminate].
    injection Hb as _ <-. destruct out; reflexivity.
Qed.

(** When the worker's error or the cancellation wins, [Run] records that one
    error with its classification and returns; it publishes nothing and
    registers nothing, and the context is cancelled only for a cancellation. *)
Theorem Run_send_failure h entries out t req evs :
  buildRequest E h entries t = (inr req, evs) ->
  (forall resp, out <> GotResponse resp) ->
  exists t' err code,
    Run E h entries out t = (Return t' None, evs ++ send_events out req)
    /\ task_errors t' = (err, code) :: task_errors t
    /\ task_values t' = task_values t
    /\ task_callbacks t' = task_callbacks t
    /\ match out with
       | GotError e =>
           err = e /\ code = ResultServiceUnavailable
           /\ ~ In EvCancel (Run E h entries out t).2
       | GotCancel =>
           err = "task is cancelled by " +:+ CancelCause t
           /\ code = ResultTaskCancelled
           /\ In EvCancel (Run E h entries out t).2
       | GotResponse _ => False
       end.
Proof.
  intros Hb Hout. rewrite (Run_dispatch _ _ _ _ _ _ _ Hb).
  assert (Hno : ~ In EvCancel evs).
  { unfold buildRequest in Hb.
    destruct (requestBody E (conf h) t) as [t2 | [reader length]]; [discriminate|].
    destruct (http_NewRequest E _ _ _); [|discriminate].
    injection Hb as _ <-. intros [H | []]. discriminate. }
  destruct out as [resp | e |]; simpl.
  - exfalso. exact (Hout resp eq_refl).
  - eexists _, _, _. repeat split.
    intros Hin. apply in_app_or in Hin as [Hin | [Hin | []]];
      [exact (Hno Hin) | discriminate].
  - eexists _, _, _. repeat split.
    apply in_or_app. right. right. left. reflexivity.
Qed.

(** A write into the task leaves the cancellation and every other field as
    they were. *)
Lemma publish_values (configured : bool) t key v t' err :
  (if configured then WithValue E t key v else (t, None)) = (t', err) ->
  task_cancelled t' = task_cancelled t
  /\ forall k, k <> key -> task_values t' !! k = task_values t !! k.
Proof.
  destruct configured.
  - unfold WithValue. destruct (task_WithValue_error E t key v);
      intros [= <- _]; simpl; split; try reflexivity.
    intros k Hk. apply lookup_insert_ne. congruence.
  - intros [= <- _]. split; reflexivity.
Qed.

(** The callbacks under other names survive the registration of one. *)
Lemma filter_other_names (name : string) (cb : TaskFinished)
    (l : list (string * TaskFinished)) :
  filter (fun p => p.1 ≠ name) (filter (fun p => p.1 ≠ name) l ++ [(name, cb)])
  = filter (fun p => p.1 ≠ name) l.
Proof.
  rewrite filter_app, list_filter_filter.
  rewrite filter_cons_False by (simpl; intros H; apply H; reflexivity).
  rewrite filter_nil, app_nil_r.
  apply list_filter_iff. intros p. tauto.
Qed.

(** Whatever [Run] returns, its error result is nil; the cancellation of the
    task is as it was; so is every field other than the two under which the
    response is published, and every callback registered under another name
    than the plugin's close callback. The task carries the errors it had and
    at most one more. *)
Theorem Run_frame h entries out t t' err evs :
  Run E h entries out t = (Return t' err, evs) ->
  err = None
  /\ task_cancelled t' = task_cancelled t
  /\ (forall k, k <> ResponseCodeKey (conf h) -> k <> ResponseBodyIOKey (conf h) ->
        task_values t' !! k = task_values t !! k)
  /\ filter (fun p => p.1 ≠ closeCallbackName E h) (task_callbacks t')
     = filter (fun p => p.1 ≠ closeCallbackName E h) (task_callbacks t)
  /\ (task_errors t' = task_errors t
      \/ exists e code, task_errors t' = (e, code) :: task_errors t).
Proof.
  destruct (buildRequest E h entries t) as [[t1 | req] evs0] eqn:Hb.
  - unfold Run. rewrite Hb. intros [= <- <- _].
    destruct (buildRequest_early _ _ _ _ _ _ Hb) as (e & code & -> & _).
    simpl. repeat split. right. eauto.
  - rewrite (Run_dispatch _ _ _ _ _ _ _ Hb).
    destruct out as [resp | e |]; simpl.
    2: { intros [= <- <- _]. simpl. repeat split. right. eauto. }
    2: { intros [= <- <- _]. simpl. repeat split. right. eauto. }
    intros [= Hmap _]. unfold mapResponse in Hmap.
    destruct (expectedResponseCode (conf h)) as [re|]; [|discriminate].
    destruct (regexp_MatchString E _ _); simpl in Hmap.
    2: { injection Hmap as <- <-. simpl. repeat split. right. eauto. }
    destruct (if negb (Nat.eqb (String.length (ResponseCodeKey (conf h))) 0)
              then WithValue E t (ResponseCodeKey (conf h)) (VInt (StatusCode resp))
              else (t, None)) as [t1 err1] eqn:H1.
    pose proof (publish_frame _ _ _ _ _ _ _ H1) as [Fe1 Fc1].
    pose proof (publish_values _ _ _ _ _ _ H1) as [Fx1 Fv1].
    destruct err1 as [e1|].
    { injection Hmap as <- <-. simpl. rewrite Fx1, Fc1, Fe1.
      split; [reflexivity|]. split; [reflexivity|].
      split; [intros k Hk _; apply Fv1, Hk|].
      split; [reflexivity | right; eauto]. }
    destruct (if negb (Nat.eqb (String.length (ResponseBodyIOKey (conf h))) 0)
              then WithValue E t1 (ResponseBodyIOKey (conf h))
                     (VReadCloser (Resp_Body resp))
              else (t1, None)) as [t2 err2] eqn:H2.
    pose proof (publish_frame _ _ _ _ _ _ _ H2) as [Fe2 Fc2].
    pose proof (publish_values _ _ _ _ _ _ H2) as [Fx2 Fv2].
    assert (Fv : forall k, k <> ResponseCodeKey (conf h) ->
                   k <> ResponseBodyIOKey (conf h) ->
                   task_values t2 !! k = task_values t !! k).
    { intros k Hk1 Hk2. rewrite (Fv2 k Hk2). apply Fv1, Hk1. }
    destruct err2 as [e2|].
    { injection Hmap as <- <-. simpl. rewrite Fx2, Fx1, Fc2, Fc1, Fe2, Fe1.
      split; [reflexivity|]. split; [reflexivity|]. split; [exact Fv|].
      split; [reflexivity | right; eauto]. }
    destruct (Close (conf h)); injection Hmap as <- <-; simpl.
    + rewrite Fx2, Fx1, Fc2, Fc1, Fe2, Fe1, filter_other_names.
      split; [reflexivity|]. split; [reflexivity|]. split; [exact Fv|].
      split; [reflexivity | left; reflexivity].
    + rewrite Fx2, Fx1, Fc2, Fc1, Fe2, Fe1.
      split; [reflexivity|]. split; [reflexivity|]. split; [exact Fv|].
      split; [reflexivity | left; reflexivity].
Qed.

(** [Run] panics in one case only: a response arrives and the configuration
    holds no compiled pattern, which is the state before [Prepare] or after
    a [Prepare] that failed before line 108. *)
Theorem Run_panics_iff h entries out t :
  (exists why, (Run E h entries out t).1 = Panic why) <->
  (exists req evs resp,
     buildRequest E h entries t = (inr req, evs)
     /\ out = GotResponse resp
     /\ expectedResponseCode (conf h) = None).
Proof.
  split.
  - intros [why Hp].
    destruct (buildRequest E h entries t) as [[t1 | req] evs] eqn:Hb.
    + unfold Run in Hp. rewrite Hb in Hp. discriminate.
    + rewrite (Run_dispatch _ _ _ _ _ _ _ Hb) in Hp.
      destruct out as [resp | e |]; simpl in Hp; try discriminate.
      destruct (expectedResponseCode (conf h)) as [re|] eqn:Hre.
      * destruct (mapResponse_returns E h t resp re Hre) as (t' & Hm & _).
        congruence.
      * exists req, evs, resp. repeat split.
  - intros (req & evs & resp & Hb & -> & Hre).
    rewrite (Run_dispatch _ _ _ _ _ _ _ Hb). simpl.
    unfold mapResponse. rewrite Hre. eexists. reflexivity.
Qed.

(** When the status code matches and the task takes the writes, [Run]
    records no error; the body is then found under the body key and the
    status code under the code key. If the two keys are the same the body,
    written last, is what the key holds. With neither key the fields of the
    task are as they were. *)
Theorem Run_publishes h entries t req evs resp re :
  buildRequest E h entries t = (inr req, evs) ->
  expectedResponseCode (conf h) = Some re ->
  regexp_MatchString E (expr re)
    (task_ToString E (StatusCode resp) (PluginIODataFormatLengthLimit E)) = true ->
  (forall t0 key v, task_WithValue_error E t0 key v = None) ->
  exists t',
    Run E h entries (GotResponse resp) t = (Return t' None, evs ++ [EvDo req])
    /\ task_errors t' = task_errors t
    /\ (ResponseBodyIOKey (conf h) <> "" ->
        Value_of t' (ResponseBodyIOKey (conf h)) = VReadCloser (Resp_Body resp))
    /\ (ResponseCodeKey (conf h) <> "" ->
        ResponseCodeKey (conf h) <> ResponseBodyIOKey (conf h) ->
        Value_of t' (ResponseCodeKey (conf h)) = VInt (StatusCode resp))
    /\ (ResponseCodeKey (conf h) = "" -> ResponseBodyIOKey (conf h) = "" ->
        task_values t' = task_values t).
Proof.
  intros Hb Hre Hm Hok. rewrite (Run_dispatch _ _ _ _ _ _ _ Hb). simpl.
  unfold mapResponse. rewrite Hre, Hm. simpl. unfold WithValue. rewrite !Hok.
  destruct (decide (ResponseCodeKey (conf h) = "")) as [Hc | Hc];
    destruct (decide (ResponseBodyIOKey (conf h) = "")) as [Hk | Hk];
    rewrite ?Hc, ?Hk, ?(length_nonempty _ Hc), ?(length_nonempty _ Hk); simpl;
    rewrite ?Hok; simpl; rewrite ?Hok; simpl;
    destruct (Close (conf h)); eexists; (split; [reflexivity|]);
    unfold Value_of; simpl;
    (split; [reflexivity|]);
    repeat split; intros; try congruence;
    rewrite ?lookup_insert_eq; try reflexivity;
    rewrite lookup_insert_ne by congruence;
    rewrite ?lookup_insert_eq; reflexivity.
Qed.

Lemma request_ext (r1 r2 : Request) :
  Req_Method r1 = Req_Method r2 -> Req_URL r1 = Req_URL r2 ->
  Req_Body r1 = Req_Body r2 -> ContentLength r1 = ContentLength r2 ->
  Header r1 = Header r2 -> r1 = r2.
Proof. destruct r1, r2; simpl; intros; subst; reflexivity. Qed.

(** The headers after the loop do not depend on the order of the entries
    when no two of them are set under the same key. *)
Lemma setHeaders_perm t entries1 entries2 :
  entries1 ≡ₚ entries2 ->
  NoDup (map (headerKey E t) entries1) ->
  forall req,
    Header (setHeaders E t entries1 req) = Header (setHeaders E t entries2 req).
Proof.
  induction 1 as [| nv l l' Hp IH | nv1 nv2 l | l l' l'' Hp1 IH1 Hp2 IH2];
    intros Hnd req.
  - reflexivity.
  - apply NoDup_cons in Hnd as [_ Hnd]. apply (IH Hnd).
  - apply NoDup_cons in Hnd as [Hne _].
    unfold setHeaders. simpl. apply (setHeaders_Header E t l). simpl.
    apply insert_insert_ne. intros Heq. apply Hne.
    apply elem_of_cons. left. unfold headerKey. congruence.
  - rewrite (IH1 Hnd). apply IH2.
    apply (NoDup_Permutation_proper _ _ (Permutation_map (headerKey E t) Hp1)).
    exact Hnd.
Qed.

(** When no two header patterns are set under the same key, neither the
    request nor anything else in [Run] depends on the order in which the map
    of header patterns is visited. *)
Theorem Run_order_independent h entries1 entries2 out t :
  entries1 ≡ₚ entries2 ->
  NoDup (map (headerKey E t) entries1) ->
  Run E h entries1 out t = Run E h entries2 out t.
Proof.
  intros Hp Hnd.
  assert (Hb : buildRequest E h entries1 t = buildRequest E h entries2 t).
  { unfold buildRequest.
    destruct (requestBody E (conf h) t) as [t1 | [reader length]]; [reflexivity|].
    destruct (http_NewRequest E _ _ _) as [req0 | e]; [|reflexivity].
    f_equal. f_equal.
    match goal with
    | |- Header_Set (setHeaders E t entries1 ?r) _ _ = _ =>
        destruct (setHeaders_fields t entries1 r) as (A1 & A2 & A3 & A4);
        destruct (setHeaders_fields t entries2 r) as (B1 & B2 & B3 & B4);
        pose proof (setHeaders_perm t _ _ Hp Hnd r) as Hh
    end.
    apply request_ext; simpl; congruence. }
  unfold Run. rewrite Hb. reflexivity.
Qed.

(** The callbacks that are left after a list of callbacks has run are those
    that none of its close callbacks removed. *)
Lemma runCallbacks_callbacks (cbs : list (string * TaskFinished)) : forall st,
  task_callbacks (fold_left (fun st ncb => runCallback ncb.2 st) cbs st).1
  = filter (fun p => p.1 ∉ closeNames cbs) (task_callbacks st.1).
Proof.
  induction cbs as [|[name cb] rest IH]; intros st; simpl.
  - induction (task_callbacks st.1) as [|p l IHl]; [reflexivity|].
    rewrite filter_cons_True by apply not_elem_of_nil. f_equal. exact IHl.
  - rewrite IH. destruct cb as [n b | i]; simpl.
    + rewrite list_filter_filter. apply list_filter_iff. intros p.
      rewrite not_elem_of_cons. tauto.
    + reflexivity.
Qed.

(** A close callback registered under its own name, as line 309 does it,
    closes the body once at the end of the task and is gone from the
    registry afterwards, so that a second round of the callbacks does not
    close the body again; provided no callback registered before closes the
    same body. *)
Theorem Finish_closes_once t name body :
  Forall (fun ncb => closesBody body ncb.2 = false) (task_callbacks t) ->
  closes body
    (Finish (AddFinishedCallback t name (closeHTTPOutputResponseBody name body))).2
  = 1
  /\ Forall (fun ncb => ncb.1 ≠ name)
       (task_callbacks
          (Finish (AddFinishedCallback t name
                     (closeHTTPOutputResponseBody name body))).1)
  /\ closes body
       (Finish (Finish (AddFinishedCallback t name
                          (closeHTTPOutputResponseBody name body))).1).2
     = 0.
Proof.
  intros Hold.
  set (t1 := AddFinishedCallback t name (closeHTTPOutputResponseBody name body)).
  assert (Hrest : Forall (fun ncb => closesBody body ncb.2 = false)
                    (filter (fun p => p.1 ≠ name) (task_callbacks t))).
  { apply List.Forall_forall. intros ncb Hin.
    apply (proj2 (list_elem_of_In _ _)) in Hin.
    apply list_elem_of_filter in Hin as [_ Hin].
    rewrite List.Forall_forall in Hold. apply Hold.
    apply (proj1 (list_elem_of_In _ _)). exact Hin. }
  assert (Hcbs : task_callbacks (Finish t1).1
                 = filter (fun p => p.1 ∉ closeNames (task_callbacks t1))
                     (task_callbacks t1))
    by (unfold Finish; apply runCallbacks_callbacks).
  assert (Hname : name ∈ closeNames (task_callbacks t1)).
  { unfold closeNames, t1. simpl. rewrite flat_map_app. simpl.
    apply list_elem_of_In, in_or_app. right. left. reflexivity. }
  split; [|split].
  - unfold Finish. rewrite runCallbacks_events. simpl.
    rewrite flat_map_app, closes_app. simpl.
    rewrite closes_others by exact Hrest.
    unfold closes. simpl. rewrite Nat.eqb_refl. reflexivity.
  - rewrite Hcbs. apply List.Forall_forall. intros ncb Hin.
    apply (proj2 (list_elem_of_In _ _)) in Hin.
    apply list_elem_of_filter in Hin as [Hnot _].
    intros Heq. apply Hnot. rewrite Heq. exact Hname.
  - unfold Finish at 1. rewrite runCallbacks_events. simpl.
    apply closes_others. rewrite Hcbs.
    apply List.Forall_forall. intros ncb Hin.
    apply (proj2 (list_elem_of_In _ _)) in Hin.
    apply list_elem_of_filter in Hin as [Hnot Hin].
    unfold t1 in Hin. simpl in Hin.
    apply elem_of_app in Hin as [Hin | Hin].
    + rewrite List.Forall_forall in Hrest. apply Hrest.
      apply (proj1 (list_elem_of_In _ _)). exact Hin.
    + apply list_elem_of_singleton in Hin. subst ncb.
      exfalso. apply Hnot. exact Hname.
Qed.

End RunCoverage.

(** ** More on the protocol of [send] *)

Module SendProtocolCoverage.

Import SendProtocol.

Lemma cancelledBy_step l s s' :
  cancelledBy s -> step l s = Some s' -> cancelledBy s'.
Proof.
  unfold cancelledBy. intros HJ Hs. destruct s as [m w ec rc cc tk]. simpl in *.
  assert (Hsel : m = MSelect -> cc = false).
  { intros ->. destruct cc; [|reflexivity].
    destruct (HJ eq_refl) as (cause & _ & Hch & _). discriminate. }
  destruct l; simpl in Hs.
  - destruct w; try discriminate. injection Hs as <-. simpl. exact HJ.
  - destruct m; try discriminate. destruct w; try discriminate.
    destruct rc; try discriminate. injection Hs as <-. simpl.
    rewrite (Hsel eq_refl). discriminate.
  - destruct m; try discriminate. destruct w; try discriminate.
    destruct ec; try discriminate. injection Hs as <-. simpl.
    rewrite (Hsel eq_refl). discriminate.
  - destruct m; try discriminate.
    destruct (task_cancelled tk) as [cause|] eqn:Hc; try discriminate.
    injection Hs as <-. simpl. intros _. exists cause.
    unfold CancelCause. rewrite Hc. simpl. repeat split.
  - destruct (task_cancelled tk) eqn:Hc; try discriminate.
    injection Hs as <-. simpl. intros Hcc.
    destruct (HJ Hcc) as (cause0 & H0 & _). discriminate.
  - destruct m; try discriminate. injection Hs as <-. simpl. exact HJ.
  - destruct m; try discriminate. injection Hs as <-. simpl. exact HJ.
  - destruct w; try discriminate.
    + destruct ec; try discriminate. injection Hs as <-. simpl. exact HJ.
    + destruct rc; try discriminate. injection Hs as <-. simpl. exact HJ.
  - destruct w; try discriminate. injection Hs as <-. simpl. exact HJ.
Qed.

Lemma cancelledBy_run ls : forall s s',
  cancelledBy s -> run ls s = Some s' -> cancelledBy s'.
Proof.
  induction ls as [|l ls IH]; intros s s' HJ Hr; simpl in Hr.
  - injection Hr as <-. exact HJ.
  - destruct (step l s) as [s1|] eqn:Hs; [|discriminate].
    eapply IH; [eapply cancelledBy_step; eassumption | exact Hr].
Qed.

(** [send] cancels the context of the call only when it acts on the
    cancellation of the task: then the task is cancelled, the select has
    chosen the cancellation error with the cause, and that error is the
    latest recorded on the task. When the select has chosen a response the
    context is not cancelled. *)
Theorem cancel_only_on_cancellation t ls s :
  run ls (init t) = Some s ->
  (ctx_cancelled s = true ->
   exists cause,
     task_cancelled (task s) = Some cause
     /\ chosen s = Some (None, Some ("task is cancelled by " +:+ cause))
     /\ head (task_errors (task s))
        = Some ("task is cancelled by " +:+ cause, ResultTaskCancelled))
  /\ (forall resp, chosen s = Some (Some resp, None) -> ctx_cancelled s = false).
Proof.
  intros Hr.
  assert (HJ : cancelledBy s).
  { apply (cancelledBy_run ls (init t) s); [|exact Hr]. intros H. discriminate. }
  split; [exact HJ|].
  intros resp Hch. destruct (ctx_cancelled s) eqn:Hc; [|reflexivity].
  destruct (HJ Hc) as (cause & _ & Hch' & _). congruence.
Qed.

End SendProtocolCoverage.

(** ** The further properties on the example inputs *)

Module CoverageExamples.

Import Examples.

(** [rawConfig] is accepted, and is acceptable. *)
Lemma Prepare_succeeds_iff_witness :
  (Prepare Reference.env rawConfig [] []).2 = None <->
  (CommonConfig_Prepare Reference.env (Common rawConfig) []).2 = None
  /\ acceptable Reference.env rawConfig.
Proof.
  exact (Prepare_succeeds_iff Reference.env rawConfig [] []
           PrepareExamples.rangeOrder_empty).
Defined.

Example Prepare_fields_rawConfig :
  stringFields (Prepare Reference.env rawConfig [] []).1
  = ["http://example.com/a?x=1"; ""; "GET"; "2.."; ""; ""; ""; ""; ""].
Proof. vm_compute. reflexivity. Qed.

(** The CA file of [certKeyConfig] becomes the root certificates. *)
Lemma Prepare_ca_certificate_witness :
  (GoStrings.TrimSpace (CAFile certKeyConfig) = "" ->
   caCert (Prepare Reference.env certKeyConfig [] []).1 = caCert certKeyConfig)
  /\ (GoStrings.TrimSpace (CAFile certKeyConfig) <> "" ->
      ioutil_ReadFile Reference.env (GoStrings.TrimSpace (CAFile certKeyConfig))
      = (caCert (Prepare Reference.env certKeyConfig [] []).1, None))
  /\ RootCAs (TLSClientConfig (client
        (HTTPOutputConstructor (Prepare Reference.env certKeyConfig [] []).1)))
     = caCert (Prepare Reference.env certKeyConfig [] []).1.
Proof.
  apply (Prepare_ca_certificate Reference.env certKeyConfig [] []).
  vm_compute. reflexivity.
Defined.

(** The default of 120 seconds. *)
Lemma HTTPOutputConstructor_timeout_witness :
  (Timeout (client (HTTPOutputConstructor rawConfig)) = TimeoutSec rawConfig * 1000000000
   /\ 0 <= Timeout (client (HTTPOutputConstructor rawConfig)) < 2 ^ 63
   /\ (Timeout (client (HTTPOutputConstructor rawConfig)) = 0
       <-> TimeoutSec rawConfig = 0))%Z.
Proof.
  apply (HTTPOutputConstructor_timeout rawConfig). simpl. lia.
Defined.

(** The body of [publishRequest] is the expanded (empty) buffer pattern. *)
Lemma Run_buffer_body_witness :
  Req_Body publishRequest
  = NewBuffer (ReplaceTokensInPattern Reference.env task0
                 (RequestBodyBufferPattern (conf publishOutput))).1
  /\ ContentLength publishRequest
     = Z.of_nat (String.length
                   (ReplaceTokensInPattern Reference.env task0
                      (RequestBodyBufferPattern (conf publishOutput))).1)
  /\ Req_URL publishRequest
     = (ReplaceTokensInPattern Reference.env task0 (URLPattern (conf publishOutput))).1.
Proof.
  apply (Run_buffer_body Reference.env publishOutput [] (GotResponse resp200) task0).
  - vm_compute. reflexivity.
  - vm_compute. right. left. reflexivity.
Defined.

(** A stream with the hint "42" is limited to 42 bytes. *)
Lemma Run_stream_body_witness :
  In (EvDo streamRequest)
    (Run Reference.env streamOutput [] (GotResponse resp200) streamTask).2
  /\ exists input,
       asReader (Value_of streamTask (RequestBodyIOKey (conf streamOutput))) = Some input
       /\ (Req_Body streamRequest = input
           \/ (Req_Body streamRequest = LimitReader input (ContentLength streamRequest)
               /\ 0 <= ContentLength streamRequest)%Z)
       /\ (asString (Value_of streamTask "HTTP_CONTENT_LENGTH") = None ->
           Req_Body streamRequest = input /\ ContentLength streamRequest = 0%Z)
       /\ (forall clen, asString (Value_of streamTask "HTTP_CONTENT_LENGTH") = Some clen ->
           ContentLength streamRequest = (GoLib.ParseInt clen).1
           /\ ((GoLib.ParseInt clen).2 = None -> (0 <= (GoLib.ParseInt clen).1)%Z ->
               Req_Body streamRequest = LimitReader input (GoLib.ParseInt clen).1)
           /\ ((GoLib.ParseInt clen).2 <> None -> Req_Body streamRequest = input)
           /\ (((GoLib.ParseInt clen).1 < 0)%Z -> Req_Body streamRequest = input))
       /\ (- 2 ^ 63 <= ContentLength streamRequest < 2 ^ 63)%Z.
Proof.
  assert (Hin : In (EvDo streamRequest)
                  (Run Reference.env streamOutput [] (GotResponse resp200) streamTask).2)
    by (vm_compute; right; left; reflexivity).
  split; [exact Hin|].
  apply (Run_stream_body Reference.env streamOutput [] (GotResponse resp200)
           streamTask streamRequest); [|exact Hin].
  vm_compute. discriminate.
Defined.

(** [strconv.ParseInt] at its edges: the loop stops at the first overflow and
    does not read on, so digits that overflow before a stray byte give a
    range error, and a stray byte before that a syntax error. *)
Example ParseInt_edges :
  GoLib.ParseInt "42" = (42%Z, None)
  /\ GoLib.ParseInt "+7" = (7%Z, None)
  /\ GoLib.ParseInt "-9223372036854775808" = ((-9223372036854775808)%Z, None)
  /\ GoLib.ParseInt "9223372036854775808"
     = (9223372036854775807%Z, Some GoLib.ErrRange)
  /\ GoLib.ParseInt "99999999999999999999x"
     = (9223372036854775807%Z, Some GoLib.ErrRange)
  /\ GoLib.ParseInt "-99999999999999999999x"
     = ((-9223372036854775808)%Z, Some GoLib.ErrRange)
  /\ GoLib.ParseInt "9999999999999999999x" = (0%Z, Some GoLib.ErrSyntax)
  /\ GoLib.ParseInt "12x" = (0%Z, Some GoLib.ErrSyntax)
  /\ GoLib.ParseInt "" = (0%Z, Some GoLib.ErrSyntax)
  /\ GoLib.ParseInt "-" = (0%Z, Some GoLib.ErrSyntax).
Proof. repeat split; vm_compute; reflexivity. Qed.

(** A hint out of range is passed on as the largest int64 and the stream is
    not limited, although that value is not negative. *)
Example Run_hint_out_of_range :
  exists req,
    In (EvDo req)
      (Run Reference.env streamOutput [] (GotResponse resp200)
         (mkTask (<["HTTP_CONTENT_LENGTH" := VString "99999999999999999999x"]>
                    (<["in" := VReader (StreamReader 7)]> ∅)) [] [] None)).2
    /\ ContentLength req = 9223372036854775807%Z /\ Req_Body req = StreamReader 7.
Proof.
  eexists. split; [vm_compute; right; left; reflexivity|]. split; reflexivity.
Qed.

(** A negative hint is passed on as the content length, with the stream not
    limited. *)
Example Run_negative_hint :
  exists req,
    In (EvDo req)
      (Run Reference.env streamOutput [] (GotResponse resp200)
         (mkTask (<["HTTP_CONTENT_LENGTH" := VString "-5"]>
                    (<["in" := VReader (StreamReader 7)]> ∅)) [] [] None)).2
    /\ ContentLength req = (-5)%Z /\ Req_Body req = StreamReader 7.
Proof.
  eexists. split; [vm_compute; right; left; reflexivity|]. split; reflexivity.
Qed.

(** A refused connection. *)
Lemma Run_send_failure_witness :
  exists t' err code,
    Run Reference.env publishOutput [] (GotError "connection refused") task0
    = (Return t' None,
       [EvNewRequest "GET" "http://example.com/"]
       ++ send_events (GotError "connection refused") publishRequest)
    /\ task_errors t' = (err, code) :: task_errors task0
    /\ task_values t' = task_values task0
    /\ task_callbacks t' = task_callbacks task0
    /\ (err = "connection refused" /\ code = ResultServiceUnavailable
        /\ ~ In EvCancel
              (Run Reference.env publishOutput [] (GotError "connection refused")
                 task0).2).
Proof.
  apply (Run_send_failure Reference.env publishOutput []
           (GotError "connection refused") task0 publishRequest
           [EvNewRequest "GET" "http://example.com/"]).
  - vm_compute. reflexivity.
  - intros resp. discriminate.
Defined.

(** Status 200 against "2..", published under "code" and "body". *)
Lemma Run_publishes_witness :
  exists t',
    Run Reference.env publishOutput [] (GotResponse resp200) task0
    = (Return t' None, [EvNewRequest "GET" "http://example.com/"] ++ [EvDo publishRequest])
    /\ task_errors t' = task_errors task0
    /\ (ResponseBodyIOKey (conf publishOutput) <> "" ->
        Value_of t' (ResponseBodyIOKey (conf publishOutput))
        = VReadCloser (Resp_Body resp200))
    /\ (ResponseCodeKey (conf publishOutput) <> "" ->
        ResponseCodeKey (conf publishOutput) <> ResponseBodyIOKey (conf publishOutput) ->
        Value_of t' (ResponseCodeKey (conf publishOutput)) = VInt (StatusCode resp200))
    /\ (ResponseCodeKey (conf publishOutput) = "" ->
        ResponseBodyIOKey (conf publishOutput) = "" ->
        task_values t' = task_values task0).
Proof.
  apply (Run_publishes Reference.env publishOutput [] task0 publishRequest
           [EvNewRequest "GET" "http://example.com/"] resp200 (mkRegexp "2..")).
  - vm_compute. reflexivity.
  - vm_compute. reflexivity.
  - vm_compute. reflexivity.
  - intros t0 key v. reflexivity.
Defined.

(** What [Run] left alone in [publishedTask]. *)
Lemma Run_frame_witness :
  @None error = None
  /\ task_cancelled publishedTask = task_cancelled task0
  /\ (forall k, k <> ResponseCodeKey (conf publishOutput) ->
        k <> ResponseBodyIOKey (conf publishOutput) ->
        task_values publishedTask !! k = task_values task0 !! k)
  /\ filter (fun p => p.1 ≠ closeCallbackName Reference.env publishOutput)
       (task_callbacks publishedTask)
     = filter (fun p => p.1 ≠ closeCallbackName Reference.env publishOutput)
         (task_callbacks task0)
  /\ (task_errors publishedTask = task_errors task0
      \/ exists e code, task_errors publishedTask = (e, code) :: task_errors task0).
Proof.
  apply (Run_frame Reference.env publishOutput [] (GotResponse resp200) task0
           publishedTask None
           [EvNewRequest "GET" "http://example.com/"; EvDo publishRequest]).
  vm_compute. reflexivity.
Defined.

(** An unvalidated configuration panics on a response, and on nothing else. *)
Example Run_unvalidated_no_panic :
  (Run Reference.env unvalidatedOutput [] (GotError "connection refused") task0).1
  = Return (mkTask ∅ [("connection refused", ResultServiceUnavailable)] [] None) None.
Proof. vm_compute. reflexivity. Qed.

Lemma traceFirst_keys : NoDup (map (headerKey Reference.env idTask) traceFirst).
Proof.
  apply NoDup_cons. split.
  - apply (bool_decide_eq_false_1 _). vm_compute. reflexivity.
  - apply NoDup_singleton.
Defined.

(** Two headers under different names, visited in either order. *)
Lemma Run_order_independent_witness :
  Run Reference.env headersOutput traceFirst (GotResponse resp200) idTask
  = Run Reference.env headersOutput acceptFirst (GotResponse resp200) idTask.
Proof.
  apply (Run_order_independent Reference.env headersOutput traceFirst acceptFirst
           (GotResponse resp200) idTask).
  - apply perm_swap.
  - exact traceFirst_keys.
Defined.

(** The request of [headersOutput]: both patterns expanded, under their
    canonical names, beside the fixed User-Agent. *)
Example Run_headers :
  exists req,
    In (EvDo req)
      (Run Reference.env headersOutput traceFirst (GotResponse resp200) idTask).2
    /\ Header req !! "X-Trace" = Some ["r-17"]
    /\ Header req !! "Accept" = Some ["text/plain"]
    /\ Header req !! "User-Agent" = Some ["EaseGateway"].
Proof.
  eexists. split; [vm_compute; right; left; reflexivity|].
  repeat split; vm_compute; reflexivity.
Qed.

(** Two patterns that expand to the same header name: the one visited last
    stays, so the order shows. *)
Example setHeaders_collision :
  Header (setHeaders Reference.env task0 [("accept", "a"); ("Accept", "b")]
            (mkRequest "GET" "" (NewBuffer "") 0 ∅)) !! "Accept" = Some ["b"]
  /\ Header (setHeaders Reference.env task0 [("Accept", "b"); ("accept", "a")]
               (mkRequest "GET" "" (NewBuffer "") 0 ∅)) !! "Accept" = Some ["a"].
Proof. split; vm_compute; reflexivity. Qed.

(** The close callback on a task without other callbacks. *)
Lemma Finish_closes_once_witness :
  closes (mkBody 1)
    (Finish (AddFinishedCallback codeTask "out-closeHTTPOutputResponseBody"
               (closeHTTPOutputResponseBody "out-closeHTTPOutputResponseBody"
                  (mkBody 1)))).2
  = 1
  /\ Forall (fun ncb => ncb.1 ≠ "out-closeHTTPOutputResponseBody")
       (task_callbacks
          (Finish (AddFinishedCallback codeTask "out-closeHTTPOutputResponseBody"
                     (closeHTTPOutputResponseBody "out-closeHTTPOutputResponseBody"
                        (mkBody 1)))).1)
  /\ closes (mkBody 1)
       (Finish (Finish (AddFinishedCallback codeTask "out-closeHTTPOutputResponseBody"
                          (closeHTTPOutputResponseBody
                             "out-closeHTTPOutputResponseBody" (mkBody 1)))).1).2
     = 0.
Proof.
  apply (Finish_closes_once codeTask "out-closeHTTPOutputResponseBody" (mkBody 1)).
  constructor.
Defined.

(** After [send] has returned on [lateSchedule], the worker comes to its end. *)
Lemma late_worker_finishes_witness :
  exists ls' s',
    SendProtocol.run ls' returnedState = Some s'
    /\ SendProtocol.worker s' = SendProtocol.WDone.
Proof.
  apply (SendProtocolFacts.late_worker_finishes task0 (firstn 5 lateSchedule)
           returnedState (None, Some "task is cancelled by client gone")).
  - vm_compute. reflexivity.
  - reflexivity.
  - discriminate.
Defined.


(** The cancellation of a cancelled task is an outcome of the protocol. *)
Lemma send_complete_witness :
  exists ls s,
    SendProtocol.run ls (SendProtocol.init cancelledTask) = Some s
    /\ SendProtocol.main s = SendProtocol.MReturned (send GotCancel cancelledTask).2
    /\ SendProtocol.task s = (send GotCancel cancelledTask).1.
Proof.
  apply (SendProtocolFacts.send_complete cancelledTask GotCancel).
  intros _. eexists. reflexivity.
Defined.

(** The context of [lateState] is cancelled, by the cancellation. *)
Lemma cancel_only_on_cancellation_witness :
  (SendProtocol.ctx_cancelled lateState = true ->
   exists cause,
     task_cancelled (SendProtocol.task lateState) = Some cause
     /\ SendProtocol.chosen lateState
        = Some (None, Some ("task is cancelled by " +:+ cause))
     /\ head (task_errors (SendProtocol.task lateState))
        = Some ("task is cancelled by " +:+ cause, ResultTaskCancelled))
  /\ (forall resp, SendProtocol.chosen lateState = Some (Some resp, None) ->
        SendProtocol.ctx_cancelled lateState = false).
Proof.
  apply (SendProtocolCoverage.cancel_only_on_cancellation task0 lateSchedule lateState).
  vm_compute. reflexivity.
Defined.

End CoverageExamples.
